(** * ActivityEducation/backend: the two helper scripts under [scripts/]

    - [scripts/project-structure.py]: [parse_gitignore],
      [matches_gitignore_pattern], [generate_project_structure_doc];
    - [scripts/create-ai-transfer-doc.py]: [concatenate_typescript_files]
      and its main program.

    The scripts are embedded as Rocq functions.  Python's [str] is [string]
    (characters are the code points 0..255), exceptions are the [Raise] case
    of an error monad, the file system is an explicit value [world] that the
    functions read, and standard output and the written files are returned
    as part of the final state.  The standard-library functions the scripts
    call ([str] methods, [re], [os.path], [os.walk]) are modelled next to
    them, in the behaviour of CPython 3.7 and later. *)

From Stdlib Require Import String Ascii List Bool Arith Lia.
Import ListNotations.

Local Open Scope string_scope.
Local Open Scope bool_scope.

(** ** Exceptions *)

(** An exception: its class and the text [str(e)] gives. *)
Record exn : Type := Exn { exn_class : string; exn_msg : string }.

Inductive result (A : Type) : Type :=
| Ok (a : A)
| Raise (e : exn).
Arguments Ok {A} a.
Arguments Raise {A} e.

Definition bind {A B : Type} (m : result A) (k : A -> result B) : result B :=
  match m with
  | Ok a => k a
  | Raise e => Raise e
  end.

Notation "x <- m ;; k" := (bind m (fun x => k))
  (at level 61, m at next level, right associativity).

(** [for x in l: acc = body(acc, x)], where the body may raise. *)
Fixpoint for_each {A S : Type} (body : S -> A -> result S) (l : list A) (acc : S)
  : result S :=
  match l with
  | [] => Ok acc
  | x :: l' => acc' <- body acc x ;; for_each body l' acc'
  end.

(** [l.append(x)] *)
Definition append {A : Type} (l : list A) (x : A) : list A := (l ++ [x])%list.

(** A list comprehension [[x for x in l if keep(x)]], where [keep] may raise. *)
Fixpoint comprehension {A : Type} (keep : A -> result bool) (l : list A)
  : result (list A) :=
  match l with
  | [] => Ok []
  | x :: l' =>
      k <- keep x ;;
      rest <- comprehension keep l' ;;
      Ok (if k then x :: rest else rest)
  end.

(** ** Python [str] methods *)

Module PyStr.

Definition nl : ascii := "010"%char.
Definition cr : ascii := "013"%char.

(** [s.startswith(p)] *)
Definition startswith (s p : string) : bool := String.prefix p s.

(** [s.endswith(p)] *)
Fixpoint endswith (s p : string) : bool :=
  if String.eqb s p then true
  else match s with
       | EmptyString => false
       | String _ s' => endswith s' p
       end.

(** [s[1:]] *)
Definition drop_first (s : string) : string :=
  match s with
  | EmptyString => EmptyString
  | String _ s' => s'
  end.

(** [s[:-1]] *)
Fixpoint drop_last (s : string) : string :=
  match s with
  | EmptyString => EmptyString
  | String c s' =>
      match s' with
      | EmptyString => EmptyString
      | String _ _ => String c (drop_last s')
      end
  end.

(** The scan of [s.replace(old, new)] for a non-empty [old]: left to right,
    occurrences do not overlap; [skip] counts the characters of an
    occurrence that are still to be passed over. *)
Fixpoint replace_from (old new s : string) (skip : nat) : string :=
  match s with
  | EmptyString => EmptyString
  | String c s' =>
      match skip with
      | S k => replace_from old new s' k
      | O =>
          if String.prefix old s
          then new ++ replace_from old new s' (String.length old - 1)
          else String c (replace_from old new s' 0)
      end
  end.

(** With an empty [old], [new] is inserted before every character and at
    the end. *)
Fixpoint interleave (new s : string) : string :=
  match s with
  | EmptyString => new
  | String c s' => new ++ String c (interleave new s')
  end.

(** [s.replace(old, new)] *)
Definition replace (old new s : string) : string :=
  match old with
  | EmptyString => interleave new s
  | String _ _ => replace_from old new s 0
  end.

(** [s.split(sep)] for a one-character separator: empty pieces are kept,
    and the empty string splits into one empty piece. *)
Fixpoint split (sep : ascii) (s : string) : list string :=
  match s with
  | EmptyString => [EmptyString]
  | String c s' =>
      if Ascii.eqb c sep then EmptyString :: split sep s'
      else match split sep s' with
           | [] => [String c EmptyString]
           | piece :: rest => String c piece :: rest
           end
  end.

(** [s.count(c)] for a one-character [c]. *)
Fixpoint count (c : ascii) (s : string) : nat :=
  match s with
  | EmptyString => 0
  | String d s' => (if Ascii.eqb d c then 1 else 0) + count c s'
  end.

(** [sep.join(l)] *)
Definition join (sep : string) (l : list string) : string := String.concat sep l.

(** [s * n] *)
Fixpoint times (s : string) (n : nat) : string :=
  match n with
  | O => EmptyString
  | S n' => s ++ times s n'
  end.

(** The characters [str.strip()] removes: tab, LF, VT, FF, CR, the
    separators 28..31, space, NEL (133) and the no-break space (160). *)
Definition isspace (c : ascii) : bool :=
  let n := nat_of_ascii c in
  (((9 <=? n) && (n <=? 13)) || ((28 <=? n) && (n <=? 32))
   || (n =? 133) || (n =? 160))%nat.

Fixpoint lstrip (s : string) : string :=
  match s with
  | EmptyString => EmptyString
  | String c s' => if isspace c then lstrip s' else s
  end.

Fixpoint rstrip (s : string) : string :=
  match s with
  | EmptyString => EmptyString
  | String c s' =>
      match rstrip s' with
      | EmptyString => if isspace c then EmptyString else String c EmptyString
      | String _ _ as r => String c r
      end
  end.

(** [s.strip()] *)
Definition strip (s : string) : string := rstrip (lstrip s).

(** What text mode does on reading (universal newlines): CR LF and a lone
    CR both arrive as LF. *)
Fixpoint universal_newlines (s : string) : string :=
  match s with
  | EmptyString => EmptyString
  | String c s' =>
      if Ascii.eqb c cr then
        match s' with
        | String d s'' =>
            if Ascii.eqb d nl then String nl (universal_newlines s'')
            else String nl (universal_newlines s')
        | EmptyString => String nl EmptyString
        end
      else String c (universal_newlines s')
  end.

(** The lines [for line in f] yields: each keeps its LF, a last line
    without LF is yielded when it is not empty. *)
Fixpoint keepends (s : string) : list string :=
  match s with
  | EmptyString => []
  | String c s' =>
      if Ascii.eqb c nl then String c EmptyString :: keepends s'
      else match keepends s' with
           | [] => [String c EmptyString]
           | line :: rest => String c line :: rest
           end
  end.

Definition file_lines (content : string) : list string :=
  keepends (universal_newlines content).

End PyStr.

Import PyStr.

(** ** The fragment of [re] the scripts use *)

Module PyRe.

(** [flat_map] over the characters of a string. *)
Fixpoint expand (f : ascii -> string) (s : string) : string :=
  match s with
  | EmptyString => EmptyString
  | String c s' => f c ++ expand f s'
  end.

(** The characters [re.escape] puts a backslash before (CPython 3.7 and
    later): [()[]{}?*+-|^$\.&~#], space, tab, LF, CR, VT, FF. *)
Definition special (c : ascii) : bool :=
  existsb (Ascii.eqb c)
    (list_ascii_of_string "()[]{}?*+-|^$\.&~# "
     ++ ["009"; "010"; "013"; "011"; "012"]%char).

Definition escape_char (c : ascii) : string :=
  if special c then String "\" (String c EmptyString) else String c EmptyString.

(** [re.escape(s)] *)
Definition escape (s : string) : string := expand escape_char s.

(** Compiled expressions of the fragment: literal characters, [.], a
    starred atom, [^] and [$]. *)
Inductive atom : Type :=
| Lit (c : ascii)
| Dot.

Inductive item : Type :=
| One (a : atom)
| Star (a : atom)
| Bol
| Eol.

Definition re_error (msg : string) : exn := Exn "re.error" msg.
Definition not_modelled (msg : string) : exn := Exn "NotModelled" msg.

Definition alnum (c : ascii) : bool :=
  let n := nat_of_ascii c in
  (((48 <=? n) && (n <=? 57)) || ((65 <=? n) && (n <=? 90))
   || ((97 <=? n) && (n <=? 122)))%nat.

(** Characters that are operators when they stand unescaped; outside
    [. * ^ $ \] they are not part of the fragment. *)
Definition operator (c : ascii) : bool :=
  existsb (Ascii.eqb c) (list_ascii_of_string "*+?{}[]()|").

(** After [a*], one more quantifier character is a second repeat, a lazy
    or a possessive star. *)
Definition after_star (rest : string) : result unit :=
  match rest with
  | String c _ =>
      if Ascii.eqb c "*" then Raise (re_error "multiple repeat")
      else if Ascii.eqb c "?" || Ascii.eqb c "+"
           then Raise (not_modelled "lazy or possessive repeat")
           else Ok tt
  | EmptyString => Ok tt
  end.

(** [re.compile] on the fragment.  A backslash before a character that is
    not a letter or digit makes it a literal; a [*] binds to the atom
    just before it. *)
Fixpoint compile (s : string) : result (list item) :=
  match s with
  | EmptyString => Ok []
  | String c s1 =>
      if Ascii.eqb c "^" then r <- compile s1 ;; Ok (Bol :: r)
      else if Ascii.eqb c "$" then r <- compile s1 ;; Ok (Eol :: r)
      else if Ascii.eqb c "\" then
        match s1 with
        | EmptyString => Raise (re_error "bad escape (end of pattern)")
        | String d s2 =>
            if alnum d then Raise (not_modelled "escape sequence")
            else
              match s2 with
              | String q s3 =>
                  if Ascii.eqb q "*"
                  then _ <- after_star s3 ;; r <- compile s3 ;; Ok (Star (Lit d) :: r)
                  else r <- compile s2 ;; Ok (One (Lit d) :: r)
              | EmptyString => Ok [One (Lit d)]
              end
        end
      else if operator c then
        (if Ascii.eqb c "*" then Raise (re_error "nothing to repeat")
         else Raise (not_modelled "operator"))
      else
        let a := if Ascii.eqb c "." then Dot else Lit c in
        match s1 with
        | String q s2 =>
            if Ascii.eqb q "*"
            then _ <- after_star s2 ;; r <- compile s2 ;; Ok (Star a :: r)
            else r <- compile s1 ;; Ok (One a :: r)
        | EmptyString => Ok [One a]
        end
  end.

(** [.] matches every character but LF (no DOTALL flag). *)
Definition atom_matches (a : atom) (c : ascii) : bool :=
  match a with
  | Lit d => Ascii.eqb d c
  | Dot => negb (Ascii.eqb c nl)
  end.

(** [$] without MULTILINE: at the end, or just before an LF that ends the
    string. *)
Definition at_end (s : string) : bool :=
  match s with
  | EmptyString => true
  | String c EmptyString => Ascii.eqb c nl
  | String _ (String _ _) => false
  end.

(** Whether the items match a prefix of [s]; [bos] tells that [s] is
    still the whole subject ([^] without MULTILINE).  A star tries every
    number of repetitions, as backtracking does. *)
Fixpoint match_items (r : list item) (s : string) (bos : bool) {struct r} : bool :=
  match r with
  | [] => true
  | One a :: r' =>
      match s with
      | EmptyString => false
      | String c s' => atom_matches a c && match_items r' s' false
      end
  | Star a :: r' =>
      (fix star (s : string) (bos : bool) {struct s} : bool :=
         match_items r' s bos
         || match s with
            | EmptyString => false
            | String c s' => atom_matches a c && star s' false
            end) s bos
  | Bol :: r' => bos && match_items r' s bos
  | Eol :: r' => at_end s && match_items r' s bos
  end.

(** The truth value of [re.match(pattern, s)]. *)
Definition re_match (pattern s : string) : result bool :=
  r <- compile pattern ;; Ok (match_items r s true).

End PyRe.

Import PyRe.

(** ** [os.path] *)

(** [os.path] is a different module on each platform; the scripts use its
    separator [os.sep] and three of its functions. *)
Class OsPath : Type := {
  sep : ascii;
  path_join : string -> string -> string;
  relpath : string -> string -> result string;
  basename : string -> string
}.

(** [posixpath], run in the working directory [cwd]. *)
Module Posix.

Definition slash : ascii := "/"%char.

Definition isabs (s : string) : bool := startswith s "/".

(** [posixpath.join(a, b)] *)
Definition join (a b : string) : string :=
  if startswith b "/" then b
  else if String.eqb a "" || endswith a "/" then a ++ b
  else a ++ "/" ++ b.

(** [posixpath.basename(p)]: what follows the last slash. *)
Definition basename (p : string) : string := last (split slash p) "".

(** One turn of the loop of [normpath] over the components. *)
Definition normpath_step (initial_slashes : nat) (new_comps : list string)
    (comp : string) : list string :=
  if String.eqb comp "" || String.eqb comp "." then new_comps
  else if negb (String.eqb comp "..")
          || (Nat.eqb initial_slashes 0
              && match new_comps with [] => true | _ => false end)
          || (match new_comps with
              | [] => false
              | _ => String.eqb (last new_comps "") ".."
              end)
       then new_comps ++ [comp]
       else removelast new_comps.

(** The slashes [normpath] keeps in front: POSIX lets two slashes stand,
    three or more are one. *)
Definition initial_slashes (path : string) : nat :=
  if startswith path "/"
  then (if startswith path "//" && negb (startswith path "///") then 2 else 1)
  else 0.

(** [posixpath.normpath(path)] *)
Definition normpath (path : string) : string :=
  if String.eqb path "" then "."
  else
    let comps := split slash path in
    let new_comps :=
      fold_left (normpath_step (initial_slashes path)) comps [] in
    let path := times "/" (initial_slashes path) ++ PyStr.join "/" new_comps in
    if String.eqb path "" then "." else path.

(** [posixpath.abspath(path)] *)
Definition abspath (cwd path : string) : string :=
  normpath (if isabs path then path else join cwd path).

(** The length of [os.path.commonprefix] of two lists. *)
Fixpoint common_len (l1 l2 : list string) : nat :=
  match l1, l2 with
  | a :: l1', b :: l2' => if String.eqb a b then S (common_len l1' l2') else 0
  | _, _ => 0
  end.

Definition nonempty (s : string) : bool := negb (String.eqb s "").

(** [posixpath.join] of all the strings of a list. *)
Definition join_all (l : list string) : string :=
  match l with
  | [] => ""
  | a :: rest => fold_left join rest a
  end.

(** [posixpath.relpath(path, start)] *)
Definition relpath (cwd path start : string) : result string :=
  if String.eqb path "" then Raise (Exn "ValueError" "no path specified")
  else
    let start_list := filter nonempty (split slash (abspath cwd start)) in
    let path_list := filter nonempty (split slash (abspath cwd path)) in
    let i := common_len start_list path_list in
    let rel_list :=
      (repeat ".." (List.length start_list - i) ++ skipn i path_list)%list in
    match rel_list with
    | [] => Ok "."
    | _ => Ok (join_all rel_list)
    end.

End Posix.

Definition posix (cwd : string) : OsPath := {|
  sep := Posix.slash;
  path_join := Posix.join;
  relpath := Posix.relpath cwd;
  basename := Posix.basename
|}.

(** ** The file system *)

(** A directory as [os.scandir] lists it: its subdirectories and its other
    entries, each list in listing order.  A file carries what
    [open(...).read()] gives for it: its text, or the exception raised. *)
#[local] Unset Elimination Schemes.
Inductive dir : Type :=
| Dir (subdirs : list (string * dir)) (files : list (string * result string)).
#[local] Set Elimination Schemes.

(** Induction over a directory, with the property known of every
    subdirectory. *)
Section DirInd.
Variable P : dir -> Prop.
Hypothesis step :
  forall subdirs files,
    Forall (fun entry => P (snd entry)) subdirs -> P (Dir subdirs files).

Fixpoint dir_ind (d : dir) : P d :=
  match d with
  | Dir subdirs files =>
      step subdirs files
        ((fix each (l : list (string * dir)) : Forall (fun entry => P (snd entry)) l :=
            match l with
            | [] => Forall_nil _
            | entry :: l' => Forall_cons entry (dir_ind (snd entry)) (each l')
            end) subdirs)
  end.
End DirInd.

Inductive node : Type :=
| NFile (read : result string)
| NDir (d : dir).

(** What a path names, and whether a file can be opened there for writing. *)
Record world : Type := World {
  lookup : string -> option node;
  open_for_write : string -> result unit
}.

(** [os.path.exists] *)
Definition path_exists (w : world) (path : string) : bool :=
  match lookup w path with
  | Some _ => true
  | None => false
  end.

(** [os.path.isdir] *)
Definition isdir (w : world) (path : string) : bool :=
  match lookup w path with
  | Some (NDir _) => true
  | _ => false
  end.

(** [open(path, 'r').read()] *)
Definition open_read (w : world) (path : string) : result string :=
  match lookup w path with
  | Some (NFile r) => r
  | Some (NDir _) =>
      Raise (Exn "IsADirectoryError" ("[Errno 21] Is a directory: '" ++ path ++ "'"))
  | None =>
      Raise (Exn "FileNotFoundError"
               ("[Errno 2] No such file or directory: '" ++ path ++ "'"))
  end.

Section Walk.
Context {host : OsPath}.

(** The triples [os.walk(top)] yields when the caller leaves the lists as
    they are: the directory itself, then each subdirectory in turn. *)
Fixpoint walk_dir (top : string) (d : dir)
  : list (string * list string * list (string * result string)) :=
  match d with
  | Dir subdirs files =>
      (top, map fst subdirs, files)
      :: (fix descend (l : list (string * dir)) :=
            match l with
            | [] => []
            | (name, sub) :: l' =>
                (walk_dir (path_join top name) sub ++ descend l')%list
            end) subdirs
  end.

(** A [top] that is no directory yields nothing: [os.walk] swallows the
    error of listing it. *)
Definition os_walk (w : world) (top : string)
  : list (string * list string * list (string * result string)) :=
  match lookup w top with
  | Some (NDir d) => walk_dir top d
  | _ => []
  end.

(** [for dirpath, dirnames, filenames in os.walk(top): body], where the
    body may prune [dirnames] in place: it returns the names it leaves in
    the list, and only those are descended into. *)
Fixpoint walk_pruning {S : Type}
    (body : S -> string -> list string -> list string -> result (list string * S))
    (top : string) (d : dir) (acc : S) : result S :=
  match d with
  | Dir subdirs files =>
      r <- body acc top (map fst subdirs) (map fst files) ;;
      (fix descend (l : list (string * dir)) (acc : S) : result S :=
         match l with
         | [] => Ok acc
         | (name, sub) :: l' =>
             if existsb (String.eqb name) (fst r)
             then acc' <- walk_pruning body (path_join top name) sub acc ;;
                  descend l' acc'
             else descend l' acc
         end) subdirs (snd r)
  end.

Definition os_walk_pruning {S : Type}
    (body : S -> string -> list string -> list string -> result (list string * S))
    (w : world) (top : string) (acc : S) : result S :=
  match lookup w top with
  | Some (NDir d) => walk_pruning body top d acc
  | _ => Ok acc
  end.

End Walk.

(** ** scripts/project-structure.py *)

(** A rule of the ignore file: [(pattern, is_negation)]. *)
Definition pattern : Type := (string * bool)%type.

(** [parse_gitignore(gitignore_path)] *)
Definition parse_gitignore (w : world) (gitignore_path : string)
  : result (list pattern) :=
  if path_exists w gitignore_path then
    content <- open_read w gitignore_path ;;
    Ok (fold_left
          (fun (patterns : list pattern) (line : string) =>
             let line := strip line in
             if String.eqb line "" || startswith line "#" then patterns
             else if startswith line "!"
                  then append patterns (drop_first line, true)
                  else append patterns (line, false))
          (file_lines content) [])
  else Ok [].

(** The expression one turn of the loop of [matches_gitignore_pattern]
    builds from [pattern_str]. *)
Definition rule_regex (pattern_str : string) : string :=
  let is_dir_pattern := endswith pattern_str "/" in
  let pattern_str := if is_dir_pattern then drop_last pattern_str else pattern_str in
  let regex_pattern := replace "\?" "." (replace "\*" ".*" (escape pattern_str)) in
  let regex_pattern :=
    if negb (startswith pattern_str "/") then ".*" ++ regex_pattern
    else drop_first regex_pattern in
  "^" ++ regex_pattern ++ "$".

Section ProjectStructure.
Context {host : OsPath}.

(** One turn of the loop: the new value of [matched_by_exclude]. *)
Definition rule_step (relative_filepath filepath : string)
    (matched_by_exclude : bool) (rule : pattern) : result bool :=
  let '(pattern_str, is_negation) := rule in
  let regex_pattern := rule_regex pattern_str in
  on_path <- re_match regex_pattern relative_filepath ;;
  hit <- (if on_path then Ok true
          else re_match regex_pattern (basename filepath)) ;;
  Ok (if hit then (if is_negation then false else true)
      else matched_by_exclude).

(** [matches_gitignore_pattern(filepath, patterns, root_dir)] *)
Definition matches_gitignore_pattern (filepath : string)
    (patterns : list pattern) (root_dir : string) : result bool :=
  if existsb (String.eqb ".git") (split sep filepath) then Ok true
  else
    relative_filepath <- relpath filepath root_dir ;;
    for_each (rule_step relative_filepath filepath) patterns false.

(** The body of the loop of [generate_project_structure_doc] over
    [os.walk(root_dir)]; [out] holds the strings written so far, and the
    names the body leaves in [dirnames] are returned with it. *)
Definition structure_body (gitignore_patterns : list pattern) (root_dir : string)
    (out : list string) (dirpath : string) (dirnames filenames : list string)
  : result (list string * list string) :=
  dirnames <- comprehension
                (fun d =>
                   m <- matches_gitignore_pattern (path_join dirpath d)
                          gitignore_patterns root_dir ;;
                   Ok (negb m))
                dirnames ;;
  let level := count sep (replace root_dir "" dirpath) in
  let indent := times (times " " 4) level in
  skip <- (if negb (String.eqb dirpath root_dir)
           then matches_gitignore_pattern dirpath gitignore_patterns root_dir
           else Ok false) ;;
  if skip then Ok (dirnames, out)
  else
    let out := append out (indent ++ basename dirpath ++ "/" ++ String nl "") in
    let subindent := times (times " " 4) (level + 1) in
    out <- for_each
             (fun (out : list string) (filename : string) =>
                let filepath := path_join dirpath filename in
                m <- matches_gitignore_pattern filepath gitignore_patterns root_dir ;;
                Ok (if negb m
                    then append out (subindent ++ filename ++ String nl "")
                    else out))
             filenames out ;;
    Ok (dirnames, out).

(** [generate_project_structure_doc(root_dir, output_file)]: the strings
    it writes to [output_file], in order.  [w] is the file system as the
    walk finds it. *)
Definition generate_project_structure_doc (w : world) (root_dir : string)
  : result (list string) :=
  let gitignore_path := path_join root_dir ".gitignore" in
  gitignore_patterns <- parse_gitignore w gitignore_path ;;
  let out := ["Project Structure for: " ++ root_dir ++ String nl "";
              times "=" 30 ++ String nl (String nl "")] in
  os_walk_pruning (structure_body gitignore_patterns root_dir) w root_dir out.

End ProjectStructure.

(** ** scripts/create-ai-transfer-doc.py *)

(** What a run has collected and printed so far. *)
Record run : Type := Run {
  concatenated_content : list string;
  printed : list string
}.

Section CreateAiTransferDoc.
Context {host : OsPath}.

(** The body of the inner loop of [concatenate_typescript_files], for one
    entry [file_name] of the directory [root]; [read] is what reading the
    file gives. *)
Definition concatenate_file (directory_path root : string) (st : run)
    (file : string * result string) : result run :=
  let '(file_name, read) := file in
  if endswith file_name ".ts" then
    let file_path := path_join root file_name in
    relative_path <- relpath file_path directory_path ;;
    let normalized_path := replace (String sep "") "/" relative_path in
    match read with
    | Ok content =>
        Ok (Run (append
                   (append (concatenated_content st) "// !!-- START OF FILE --!!")
                   ("// src/" ++ normalized_path ++ String nl "" ++ content
                    ++ String nl ""))
                (printed st))
    | Raise e =>
        Ok (Run (append (concatenated_content st)
                   ("// Error reading " ++ normalized_path ++ ": " ++ exn_msg e
                    ++ String nl ""))
                (append (printed st)
                   ("Error reading " ++ normalized_path ++ ": " ++ exn_msg e)))
    end
  else Ok st.

(** [concatenate_typescript_files(directory_path)]: the string returned,
    and what the run printed. *)
Definition concatenate_typescript_files (w : world) (directory_path : string)
  : result (string * list string) :=
  if negb (isdir w directory_path)
  then Ok ("Error: Directory '" ++ directory_path ++ "' not found.", [])
  else
    st <- for_each
            (fun (st : run)
                 (triple : string * list string * list (string * result string)) =>
               let '(root, _, files) := triple in
               for_each (concatenate_file directory_path root) files st)
            (os_walk w directory_path) (Run [] []) ;;
    Ok (PyStr.join (String nl "") (concatenated_content st), printed st).

(** The state the main program ends in: the lines printed and the files
    written, each with its whole text. *)
Record outcome : Type := Outcome {
  stdout : list string;
  written : list (string * string)
}.

Definition ts_source_directory : string := "src".
Definition output_file_name : string := "full_project_source.ts".

(** The [__main__] block. *)
Definition main (w : world) : result outcome :=
  let out := ["Concatenating TypeScript files from: " ++ ts_source_directory] in
  r <- concatenate_typescript_files w ts_source_directory ;;
  let concatenated_ts_code := fst r in
  let out := (out ++ snd r)%list in
  if startswith concatenated_ts_code "Error:"
  then Ok (Outcome (append out concatenated_ts_code) [])
  else
    match open_for_write w output_file_name with
    | Ok _ =>
        Ok (Outcome
              (append out
                 ("Successfully concatenated files to '" ++ output_file_name ++ "'."))
              [(output_file_name, concatenated_ts_code)])
    | Raise e =>
        Ok (Outcome
              (append out
                 ("Error writing to output file '" ++ output_file_name ++ "': "
                  ++ exn_msg e))
              [])
    end.

End CreateAiTransferDoc.

(** * Properties *)

(** ** Specification-level definitions *)

(** The truth value of a test whose expression compiled. *)
Definition matched (r : result bool) : bool :=
  match r with
  | Ok b => b
  | Raise _ => false
  end.

(** A rule matches a candidate when its expression matches the
    root-relative path or the bare name. *)
Definition rule_matches (relative_filepath name : string) (rule : pattern) : bool :=
  matched (re_match (rule_regex (fst rule)) relative_filepath)
  || matched (re_match (rule_regex (fst rule)) name).

(** The last rule of the list that matches, if any. *)
Definition last_matching (relative_filepath name : string) (patterns : list pattern)
  : option pattern :=
  find (rule_matches relative_filepath name) (rev patterns).

(** Last match wins: excluded when the last matching rule is not a
    negation, not excluded when it is one or when no rule matches. *)
Definition verdict (relative_filepath name : string) (patterns : list pattern) : bool :=
  match last_matching relative_filepath name patterns with
  | Some (_, is_negation) => negb is_negation
  | None => false
  end.

(** The pattern without the trailing slash of a directory rule, and
    without the leading slash of a root-anchored one. *)
Definition strip_dir (pattern_str : string) : string :=
  if endswith pattern_str "/" then drop_last pattern_str else pattern_str.

Definition unrooted (pattern_str : string) : string :=
  if startswith pattern_str "/" then drop_first pattern_str else pattern_str.

(** What a pattern character becomes in the expression: [*] any run of
    characters, [?] any one character, every other character itself. *)
Definition glob_char (c : ascii) : string :=
  if Ascii.eqb c "*" then ".*"
  else if Ascii.eqb c "?" then "."
  else escape_char c.

Definition glob_item (c : ascii) : item :=
  if Ascii.eqb c "*" then Star Dot
  else if Ascii.eqb c "?" then One Dot
  else One (Lit c).

Fixpoint glob_items (s : string) : list item :=
  match s with
  | EmptyString => []
  | String c s' => glob_item c :: glob_items s'
  end.

(** The items between [^] and [$] in the expression of a rule. *)
Definition rule_items (pattern_str : string) : list item :=
  let pattern_str :=
    if endswith pattern_str "/" then drop_last pattern_str else pattern_str in
  if startswith pattern_str "/" then glob_items (drop_first pattern_str)
  else Star Dot :: glob_items pattern_str.

(** Whether [parse_gitignore] keeps a line, and the rule it stores for it. *)
Definition kept_line (line : string) : bool :=
  negb (String.eqb (strip line) "") && negb (startswith (strip line) "#").

Definition rule_of_line (line : string) : pattern :=
  let line := strip line in
  if startswith line "!" then (drop_first line, true) else (line, false).

(** The [.ts] files of a run in the order they are visited, each with the
    directory [os.walk] found it in and with what reading it gives. *)
Definition ts_entries {host : OsPath} (w : world) (directory_path : string)
  : list (string * (string * result string)) :=
  flat_map
    (fun triple : string * list string * list (string * result string) =>
       map (pair (fst (fst triple)))
         (filter (fun file => endswith (fst file) ".ts") (snd triple)))
    (os_walk w directory_path).

(** [f] applied to every character of [s]. *)
Fixpoint map_chars (f : ascii -> ascii) (s : string) : string :=
  match s with
  | EmptyString => EmptyString
  | String c s' => String (f c) (map_chars f s')
  end.

(** Every occurrence of the host separator turned into a slash. *)
Definition forward_slashes {host : OsPath} (s : string) : string :=
  map_chars (fun c => if Ascii.eqb c sep then "/"%char else c) s.

(** The path written for an entry; [relpath] does not raise on the paths
    it is used for. *)
Definition normalized_path_of {host : OsPath} (directory_path : string)
    (entry : string * (string * result string)) : string :=
  match relpath (path_join (fst entry) (fst (snd entry))) directory_path with
  | Ok relative_path => forward_slashes relative_path
  | Raise _ => ""
  end.

(** What one file adds to the collected strings, and to the printed lines. *)
Definition file_block (normalized_path : string) (read : result string) : list string :=
  match read with
  | Ok content =>
      ["// !!-- START OF FILE --!!";
       "// src/" ++ normalized_path ++ String nl "" ++ content ++ String nl ""]
  | Raise e =>
      ["// Error reading " ++ normalized_path ++ ": " ++ exn_msg e ++ String nl ""]
  end.

Definition file_log (normalized_path : string) (read : result string) : list string :=
  match read with
  | Ok _ => []
  | Raise e => ["Error reading " ++ normalized_path ++ ": " ++ exn_msg e]
  end.

Definition entry_block {host : OsPath} (directory_path : string)
    (entry : string * (string * result string)) : list string :=
  file_block (normalized_path_of directory_path entry) (snd (snd entry)).

Definition entry_log {host : OsPath} (directory_path : string)
    (entry : string * (string * result string)) : list string :=
  file_log (normalized_path_of directory_path entry) (snd (snd entry)).

(** ** Definitions the proofs use *)

(** Whether [s] starts with the character [b]. *)
Definition head_is (b : ascii) (s : string) : bool :=
  match s with
  | String x _ => Ascii.eqb x b
  | EmptyString => false
  end.

(** The text of a pattern character after the first replacement. *)
Definition star_char (c : ascii) : string :=
  if Ascii.eqb c "*" then ".*" else escape_char c.

(** No repeat character stands at the head of [t]. *)
Definition plain_head (t : string) : bool :=
  negb (head_is "*" t || head_is "?" t || head_is "+" t).

(** A name without a slash that is neither empty nor [.] nor [..]. *)
Definition plain_name (x : string) : Prop :=
  x <> "" /\ x <> "." /\ x <> ".." /\ count Posix.slash x = 0.

(** Every component is non-empty and holds no slash. *)
Definition clean (l : list string) : Prop :=
  Forall (fun x => x <> "" /\ count Posix.slash x = 0) l.

(** One turn of the loops, on an entry of [ts_entries]. *)
Definition entry_step {host : OsPath} (directory_path : string) (st : run)
    (entry : string * (string * result string)) : result run :=
  concatenate_file directory_path (fst entry) st (snd entry).

(** ** Example inputs *)

Definition lines (l : list string) : string :=
  String.concat "" (map (fun s => s ++ String nl "") l).

(** A rules file with a comment, a blank line and padded lines. *)
Definition rules_text : string :=
  lines ["# build output"; "*.log"; ""; "  !keep.log  "; "   "; "build/"; "/TODO"].

Definition rules_world : world :=
  World (fun path =>
           if String.eqb path "proj/.gitignore" then Some (NFile (Ok rules_text))
           else None)
        (fun _ => Ok tt).

(** A project [proj] whose own name is an exclusion rule. *)
Definition excluded_root_world : world :=
  World (fun path =>
           if String.eqb path "proj"
           then Some (NDir (Dir [("sub", Dir [] [("b.txt", Ok "b")])]
                                [(".gitignore", Ok (lines ["proj"]));
                                 ("a.txt", Ok "a")]))
           else if String.eqb path "proj/.gitignore"
                then Some (NFile (Ok (lines ["proj"])))
                else None)
        (fun _ => Ok tt).

(** A world with nothing in it. *)
Definition empty_world : world := World (fun _ => None) (fun _ => Ok tt).

(** The files a finished run has written. *)
Definition written_of (r : result outcome) : option (list (string * string)) :=
  match r with
  | Ok o => Some (written o)
  | Raise _ => None
  end.

(** A source tree with one file that cannot be read. *)
Definition failing_tree : dir :=
  Dir [("lib",
        Dir [] [("locked.ts",
                 Raise (Exn "PermissionError"
                          "[Errno 13] Permission denied: 'src/lib/locked.ts'"));
                ("notes.md", Ok "not a source file");
                ("z.ts", Ok "let z = 26;")])]
      [("a.ts", Ok "let a = 1;"); ("README", Ok "read me")].

Definition failing_world : world :=
  World (fun path => if String.eqb path "src" then Some (NDir failing_tree) else None)
        (fun _ => Ok tt).

(** The same source tree at a later time, next to an output file that
    exists by then. *)
Definition failing_world_later : world :=
  World (fun path =>
           if String.eqb path "src" then Some (NDir failing_tree)
           else if String.eqb path "full_project_source.ts"
                then Some (NFile (Ok "an earlier output"))
                else None)
        (fun _ => Ok tt).

(** A host whose separator is the backslash; its three functions are cut
    down to what joining and relating two paths of one tree needs. *)
Definition backslash_host : OsPath := {|
  sep := "\"%char;
  path_join := fun a b => a ++ "\" ++ b;
  relpath := fun path start =>
               if String.eqb path "" then Raise (Exn "ValueError" "no path specified")
               else if String.prefix (start ++ "\") path
                    then Ok (String.substring (String.length start + 1)
                               (String.length path) path)
                    else Ok path;
  basename := fun p => last (split "\"%char p) ""
|}.

(** ** Further specification-level definitions *)

(** The string holds no line feed. *)
Definition no_lf (s : string) : Prop := count nl s = 0.

(** The pattern holds no wildcard. *)
Definition literal (p : string) : Prop :=
  count "*"%char p = 0 /\ count "?"%char p = 0.

(** The glob reading of a pattern, on a whole subject: [*] stands for any
    run of characters other than LF, [?] for one character other than LF,
    every other character for itself; one LF may follow the match. *)
Inductive glob : string -> string -> Prop :=
| glob_at_end (s : string) :
    at_end s = true -> glob "" s
| glob_star_none (p s : string) :
    glob p s -> glob (String "*" p) s
| glob_star_more (p s : string) (c : ascii) :
    c <> nl -> glob (String "*" p) s -> glob (String "*" p) (String c s)
| glob_question (p s : string) (c : ascii) :
    c <> nl -> glob p s -> glob (String "?" p) (String c s)
| glob_same (x : ascii) (p s : string) :
    x <> "*"%char -> x <> "?"%char -> glob p s -> glob (String x p) (String x s).

(** The glob a rule stands for: its pattern without the trailing slash,
    anchored when it starts with a slash, and behind a [*] when not. *)
Definition rule_glob (pattern_str : string) : string :=
  if startswith (strip_dir pattern_str) "/" then drop_first (strip_dir pattern_str)
  else String "*" (strip_dir pattern_str).

(** At most one LF, and only as the last character. *)
Fixpoint lf_only_last (s : string) : Prop :=
  match s with
  | EmptyString => True
  | String c s' => (c = nl -> s' = "") /\ lf_only_last s'
  end.


(** The descent of [walk_pruning] into the subdirectories whose names are
    left in [kept], as a function of its own. *)
Fixpoint descend_into {host : OsPath} {S : Type}
    (body : S -> string -> list string -> list string -> result (list string * S))
    (top : string) (kept : list string) (l : list (string * dir)) (acc : S)
  : result S :=
  match l with
  | [] => Ok acc
  | (name, sub) :: l' =>
      if existsb (String.eqb name) kept
      then acc' <- walk_pruning body (path_join top name) sub acc ;;
           descend_into body top kept l' acc'
      else descend_into body top kept l' acc
  end.



(** A body that prunes nothing and records what it is given. *)
Definition record_triple (acc : list (string * list string * list string))
    (top : string) (dirnames filenames : list string)
  : result (list string * list (string * list string * list string)) :=
  Ok (dirnames, (acc ++ [(top, dirnames, filenames)])%list).

(** A project whose rules exclude [node_modules], with [sub] standing for
    what that directory holds. *)
Definition pruned_world (sub : dir) : world :=
  World (fun path =>
           if String.eqb path "proj"
           then Some (NDir (Dir [("node_modules", sub);
                                 ("src", Dir [] [("main.ts", Ok "main")])]
                                [(".gitignore", Ok (lines ["node_modules/"]))]))
           else if String.eqb path "proj/.gitignore"
                then Some (NFile (Ok (lines ["node_modules/"])))
                else None)
        (fun _ => Ok tt).

(** A source directory without any [.ts] file. *)
Definition no_ts_world : world :=
  World (fun path =>
           if String.eqb path "src"
           then Some (NDir (Dir [("assets", Dir [] [("logo.svg", Ok "<svg/>")])]
                                [("README.md", Ok "read me"); ("index.tsx", Ok "x")]))
           else None)
        (fun _ => Ok tt).

(** The source tree of [failing_world] without its other files, and with
    an empty directory more. *)
Definition failing_world_bare : world :=
  World (fun path =>
           if String.eqb path "src"
           then Some (NDir (Dir [("empty", Dir [] []);
                                 ("lib",
                                  Dir [] [("locked.ts",
                                           Raise (Exn "PermissionError"
                                                    "[Errno 13] Permission denied: 'src/lib/locked.ts'"));
                                          ("z.ts", Ok "let z = 26;")])]
                                [("a.ts", Ok "let a = 1;")]))
           else None)
        (fun _ => Ok tt).

(** A world where the output file cannot be opened. *)
Definition read_only_world : world :=
  World (lookup failing_world)
        (fun path =>
           Raise (Exn "PermissionError"
                    ("[Errno 13] Permission denied: '" ++ path ++ "'"))).

(** The first [n] characters of [s]. *)
Fixpoint take (n : nat) (s : string) : string :=
  match n, s with
  | S n', String c s' => String c (take n' s')
  | _, _ => EmptyString
  end.

(** ** Strings *)

Lemma prefix_two (a b : ascii) (s : string) :
  String.prefix (String a (String b "")) s
  = match s with
    | String x r => Ascii.eqb a x && head_is b r
    | EmptyString => false
    end.
Proof.
  destruct s as [|x [|y r]]; simpl; trivial.
  - now rewrite andb_false_r; destruct (ascii_dec a x).
  - destruct (ascii_dec a x) as [->|N].
    + rewrite Ascii.eqb_refl. destruct (ascii_dec b y) as [->|M].
      * rewrite Ascii.eqb_refl. now destruct r.
      * rewrite Ascii.eqb_sym. apply Ascii.eqb_neq in M. now rewrite M.
    + apply Ascii.eqb_neq in N. now rewrite N.
Qed.

Section ReplaceTwo.
Variables (a b : ascii) (new : string).

Lemma replace_two_hit (r : string) :
  replace_from (String a (String b "")) new (String a (String b r)) 0
  = new ++ replace_from (String a (String b "")) new r 0.
Proof.
  cbn [replace_from]. rewrite prefix_two. cbn [head_is].
  now rewrite !Ascii.eqb_refl.
Qed.

Lemma replace_two_pass (x : ascii) (r : string) :
  x <> a \/ head_is b r = false ->
  replace_from (String a (String b "")) new (String x r) 0
  = String x (replace_from (String a (String b "")) new r 0).
Proof.
  intros H. cbn [replace_from]. rewrite prefix_two.
  destruct H as [H|H].
  - assert (E : Ascii.eqb a x = false) by (apply Ascii.eqb_neq; congruence).
    now rewrite E.
  - rewrite H, andb_false_r. reflexivity.
Qed.
End ReplaceTwo.

(** ** From the pattern to the compiled expression *)

Lemma special_neq (c d : ascii) : special c = false -> special d = true -> c <> d.
Proof. intros H1 H2 ->. congruence. Qed.

Lemma escape_char_special (c : ascii) :
  special c = true -> escape_char c = String "\" (String c "").
Proof. unfold escape_char. now intros ->. Qed.

Lemma escape_char_plain (c : ascii) :
  special c = false -> escape_char c = String c "".
Proof. unfold escape_char. now intros ->. Qed.

Lemma head_escape (b : ascii) (s : string) :
  special b = true -> b <> "\"%char -> head_is b (escape s) = false.
Proof.
  intros Hb Hn. destruct s as [|c s']; [reflexivity|].
  unfold escape. cbn [expand].
  destruct (special c) eqn:E.
  - rewrite (escape_char_special c E). cbn [String.append head_is].
    apply Ascii.eqb_neq. congruence.
  - rewrite (escape_char_plain c E). cbn [String.append head_is].
    apply Ascii.eqb_neq. now apply special_neq.
Qed.

Lemma head_star_char (b : ascii) (s : string) :
  special b = true -> b <> "\"%char -> b <> "."%char ->
  head_is b (expand star_char s) = false.
Proof.
  intros Hb Hn Hd. destruct s as [|c s']; [reflexivity|].
  cbn [expand]. unfold star_char at 1.
  destruct (Ascii.eqb c "*").
  - cbn [String.append head_is]. apply Ascii.eqb_neq. congruence.
  - destruct (special c) eqn:E.
    + rewrite (escape_char_special c E). cbn [String.append head_is].
      apply Ascii.eqb_neq. congruence.
    + rewrite (escape_char_plain c E). cbn [String.append head_is].
      apply Ascii.eqb_neq. now apply special_neq.
Qed.

(** The first replacement acts on each escaped character by itself. *)
Lemma replace_star_escape (s : string) :
  replace "\*" ".*" (escape s) = expand star_char s.
Proof.
  unfold replace, escape.
  induction s as [|c s IH]; [reflexivity|].
  cbn [expand]. unfold star_char at 1.
  destruct (Ascii.eqb_spec c "*") as [->|Nstar].
  - rewrite (escape_char_special "*" eq_refl). cbn [String.append].
    rewrite replace_two_hit. now rewrite IH.
  - destruct (special c) eqn:E.
    + rewrite (escape_char_special c E). cbn [String.append].
      rewrite replace_two_pass
        by (right; cbn [head_is]; now apply Ascii.eqb_neq).
      rewrite replace_two_pass
        by (right; now apply (head_escape "*" s)).
      now rewrite IH.
    + rewrite (escape_char_plain c E). cbn [String.append].
      rewrite replace_two_pass by (left; now apply special_neq).
      now rewrite IH.
Qed.

(** So does the second one. *)
Lemma replace_question_star (s : string) :
  replace "\?" "." (expand star_char s) = expand glob_char s.
Proof.
  unfold replace.
  induction s as [|c s IH]; [reflexivity|].
  cbn [expand]. unfold glob_char at 1. unfold star_char at 1.
  destruct (Ascii.eqb_spec c "*") as [->|Nstar].
  - cbn [String.append].
    rewrite replace_two_pass by (left; discriminate).
    rewrite replace_two_pass by (left; discriminate).
    now rewrite IH.
  - destruct (Ascii.eqb_spec c "?") as [->|Nq].
    + rewrite (escape_char_special "?" eq_refl). cbn [String.append].
      rewrite replace_two_hit. now rewrite IH.
    + destruct (special c) eqn:E.
      * rewrite (escape_char_special c E). cbn [String.append].
        rewrite replace_two_pass
          by (right; cbn [head_is]; now apply Ascii.eqb_neq).
        rewrite replace_two_pass
          by (right; now apply (head_star_char "?" s)).
        now rewrite IH.
      * rewrite (escape_char_plain c E). cbn [String.append].
        rewrite replace_two_pass by (left; now apply special_neq).
        now rewrite IH.
Qed.

Lemma glob_regex (s : string) :
  replace "\?" "." (replace "\*" ".*" (escape s)) = expand glob_char s.
Proof. now rewrite replace_star_escape, replace_question_star. Qed.

Lemma plain_head_char (c : ascii) (t : string) :
  c <> "*"%char -> c <> "?"%char -> c <> "+"%char -> plain_head (String c t) = true.
Proof.
  intros H1 H2 H3. unfold plain_head. cbn [head_is].
  apply Ascii.eqb_neq in H1, H2, H3. now rewrite H1, H2, H3.
Qed.

Lemma plain_head_star (t : string) : plain_head t = true -> head_is "*" t = false.
Proof.
  unfold plain_head. destruct (head_is "*" t); [discriminate | reflexivity].
Qed.

Lemma after_star_plain (t : string) : plain_head t = true -> after_star t = Ok tt.
Proof.
  unfold plain_head, after_star. destruct t as [|c t]; [reflexivity|].
  cbn [head_is]. destruct (Ascii.eqb c "*"); [discriminate|].
  destruct (Ascii.eqb c "?"); [discriminate|].
  destruct (Ascii.eqb c "+"); [discriminate | reflexivity].
Qed.

Lemma operator_special (c : ascii) : operator c = true -> special c = true.
Proof.
  unfold operator. intros H. apply existsb_exists in H.
  destruct H as (d & Hin & E). apply Ascii.eqb_eq in E. subst d.
  cbn in Hin.
  repeat (destruct Hin as [<-|Hin]; [reflexivity|]). contradiction.
Qed.

Lemma special_not_alnum (c : ascii) : special c = true -> alnum c = false.
Proof.
  unfold special. intros H. apply existsb_exists in H.
  destruct H as (d & Hin & E). apply Ascii.eqb_eq in E. subst d.
  cbn in Hin.
  repeat (destruct Hin as [<-|Hin]; [reflexivity|]). contradiction.
Qed.

Lemma compile_escaped (d : ascii) (t : string) :
  special d = true -> head_is "*" t = false ->
  compile (String "\" (String d t)) = (r <- compile t ;; Ok (One (Lit d) :: r)).
Proof.
  intros Hs Ht. apply special_not_alnum in Hs.
  cbn -[alnum operator after_star]. rewrite Hs.
  destruct t as [|q t']; [reflexivity|].
  cbn [head_is] in Ht. now rewrite Ht.
Qed.

Lemma compile_plain (c : ascii) (t : string) :
  special c = false -> head_is "*" t = false ->
  compile (String c t) = (r <- compile t ;; Ok (One (Lit c) :: r)).
Proof.
  intros Hs Ht. cbn -[alnum operator after_star].
  assert (E1 : Ascii.eqb c "^" = false)
    by (apply Ascii.eqb_neq; now apply special_neq).
  assert (E2 : Ascii.eqb c "$" = false)
    by (apply Ascii.eqb_neq; now apply special_neq).
  assert (E3 : Ascii.eqb c "\" = false)
    by (apply Ascii.eqb_neq; now apply special_neq).
  assert (E4 : Ascii.eqb c "." = false)
    by (apply Ascii.eqb_neq; now apply special_neq).
  assert (E5 : operator c = false).
  { destruct (operator c) eqn:O; [|reflexivity].
    apply operator_special in O. congruence. }
  rewrite E1, E2, E3, E5, E4.
  destruct t as [|q t']; [reflexivity|].
  cbn [head_is] in Ht. now rewrite Ht.
Qed.

Lemma compile_dot (t : string) :
  head_is "*" t = false ->
  compile (String "." t) = (r <- compile t ;; Ok (One Dot :: r)).
Proof.
  intros Ht. cbn -[alnum operator after_star].
  destruct t as [|q t']; [reflexivity|].
  cbn [head_is] in Ht. now rewrite Ht.
Qed.

Lemma compile_dot_star (t : string) :
  plain_head t = true ->
  compile (String "." (String "*" t)) = (r <- compile t ;; Ok (Star Dot :: r)).
Proof.
  intros Ht. cbn -[alnum operator after_star].
  now rewrite (after_star_plain t Ht).
Qed.

Lemma plain_head_glob (s t : string) :
  plain_head t = true -> plain_head (expand glob_char s ++ t) = true.
Proof.
  intros Ht. destruct s as [|c s]; [exact Ht|].
  cbn [expand]. unfold glob_char at 1.
  destruct (Ascii.eqb c "*"); [reflexivity|].
  destruct (Ascii.eqb c "?"); [reflexivity|].
  destruct (special c) eqn:E.
  - now rewrite (escape_char_special c E).
  - rewrite (escape_char_plain c E). cbn [String.append].
    apply plain_head_char; now apply special_neq.
Qed.

(** The translated pattern always compiles, character by character. *)
Lemma compile_glob (s t : string) (r : list item) :
  compile t = Ok r -> plain_head t = true ->
  compile (expand glob_char s ++ t) = Ok (glob_items s ++ r)%list.
Proof.
  intros Hc Ht. induction s as [|c s IH]; [exact Hc|].
  pose proof (plain_head_glob s t Ht) as Hh.
  cbn [expand glob_items]. unfold glob_char at 1, glob_item.
  destruct (Ascii.eqb_spec c "*") as [->|Nstar].
  - cbn [String.append]. rewrite compile_dot_star by exact Hh.
    now rewrite IH.
  - destruct (Ascii.eqb_spec c "?") as [->|Nq].
    + cbn [String.append]. rewrite compile_dot by now apply plain_head_star.
      now rewrite IH.
    + destruct (special c) eqn:E.
      * rewrite (escape_char_special c E). cbn [String.append].
        rewrite compile_escaped by (trivial; now apply plain_head_star).
        now rewrite IH.
      * rewrite (escape_char_plain c E). cbn [String.append].
        rewrite compile_plain by (trivial; now apply plain_head_star).
        now rewrite IH.
Qed.

Lemma startswith_slash (s : string) :
  startswith s "/" = true -> exists s', s = String "/" s'.
Proof.
  unfold startswith. destruct s as [|c s]; [discriminate|]. cbn [String.prefix].
  destruct (ascii_dec "/" c) as [<-|]; [|discriminate]. now exists s.
Qed.

(** The expression of a rule always compiles: [^], the items of the
    pattern, [$]. *)
Lemma compile_rule_regex (pattern_str : string) :
  compile (rule_regex pattern_str) = Ok (Bol :: rule_items pattern_str ++ [Eol])%list.
Proof.
  unfold rule_regex, rule_items.
  set (p := if endswith pattern_str "/" then drop_last pattern_str else pattern_str).
  rewrite glob_regex.
  destruct (startswith p "/") eqn:S; cbn [negb].
  - destruct (startswith_slash p S) as (p' & ->).
    cbn [expand drop_first]. change (glob_char "/") with "/".
    cbn [String.append drop_first].
    cbn -[alnum operator after_star expand].
    now rewrite (compile_glob p' "$" [Eol]).
  - cbn [String.append].
    cbn -[alnum operator after_star expand].
    rewrite (compile_glob p "$" [Eol]) by reflexivity.
    rewrite after_star_plain by now apply plain_head_glob.
    reflexivity.
Qed.

Lemma re_match_rule (pattern_str s : string) :
  re_match (rule_regex pattern_str) s
  = Ok (match_items (Bol :: rule_items pattern_str ++ [Eol])%list s true).
Proof. unfold re_match. now rewrite compile_rule_regex. Qed.

(** ** The loop over the rules *)

Section RuleLoop.
Context {host : OsPath}.

Lemma rule_step_spec (rel filepath : string) (m : bool) (rule : pattern) :
  rule_step rel filepath m rule
  = Ok (if rule_matches rel (basename filepath) rule then negb (snd rule) else m).
Proof.
  destruct rule as [pattern_str is_negation].
  unfold rule_step, rule_matches. cbn [fst snd].
  rewrite !re_match_rule. cbn [bind matched].
  destruct (match_items _ rel true); cbn [bind orb].
  - now destruct is_negation.
  - destruct (match_items _ (basename filepath) true); now destruct is_negation.
Qed.

Lemma rule_loop_fold (rel filepath : string) (patterns : list pattern) (m : bool) :
  for_each (rule_step rel filepath) patterns m
  = Ok (fold_left
          (fun m rule =>
             if rule_matches rel (basename filepath) rule then negb (snd rule) else m)
          patterns m).
Proof.
  revert m. induction patterns as [|rule l IH]; intros m; [reflexivity|].
  cbn [for_each fold_left]. rewrite rule_step_spec. cbn [bind]. apply IH.
Qed.

Lemma fold_last_matching (rel name : string) (patterns : list pattern) (m : bool) :
  fold_left
    (fun m rule => if rule_matches rel name rule then negb (snd rule) else m)
    patterns m
  = match last_matching rel name patterns with
    | Some rule => negb (snd rule)
    | None => m
    end.
Proof.
  unfold last_matching.
  induction patterns as [|rule l IH] using rev_ind; [reflexivity|].
  rewrite fold_left_app, rev_app_distr. cbn [fold_left rev app find].
  destruct (rule_matches rel name rule); [reflexivity | exact IH].
Qed.

(** Past the [.git] test and [relpath], the function returns the verdict
    of the last matching rule. *)
Lemma matches_verdict (filepath root_dir rel : string) (patterns : list pattern) :
  existsb (String.eqb ".git") (split sep filepath) = false ->
  relpath filepath root_dir = Ok rel ->
  matches_gitignore_pattern filepath patterns root_dir
  = Ok (verdict rel (basename filepath) patterns).
Proof.
  intros Hgit Hrel. unfold matches_gitignore_pattern.
  rewrite Hgit, Hrel. cbn [bind].
  rewrite rule_loop_fold, fold_last_matching. unfold verdict.
  now destruct (last_matching rel (basename filepath) patterns) as [[? ?]|].
Qed.
End RuleLoop.

(** ** A pattern matches its own text *)

Lemma match_star_unfold (a : atom) (r : list item) (s : string) (bos : bool) :
  match_items (Star a :: r) s bos
  = match_items r s bos
    || match s with
       | EmptyString => false
       | String c s' => atom_matches a c && match_items (Star a :: r) s' false
       end.
Proof. destruct s; reflexivity. Qed.

Lemma match_star_skip (a : atom) (r : list item) (s : string) (bos : bool) :
  match_items r s bos = true -> match_items (Star a :: r) s bos = true.
Proof. intros H. rewrite match_star_unfold, H. reflexivity. Qed.

(** Wildcards included: [*] and [?] match themselves as characters. *)
Lemma glob_items_self (s : string) (bos : bool) :
  match_items (glob_items s ++ [Eol]) s bos = true.
Proof.
  revert bos. induction s as [|c s IH]; intros bos; [reflexivity|].
  cbn [glob_items app]. unfold glob_item.
  destruct (Ascii.eqb_spec c "*") as [->|Nstar].
  - rewrite match_star_unfold.
    rewrite (match_star_skip Dot _ s false (IH false)).
    apply orb_true_r.
  - destruct (Ascii.eqb_spec c "?") as [->|Nq].
    + cbn [match_items]. now rewrite IH.
    + cbn [match_items atom_matches]. now rewrite Ascii.eqb_refl, IH.
Qed.

Lemma endswith_refl (s : string) : endswith s s = true.
Proof. destruct s; cbn [endswith]; now rewrite String.eqb_refl. Qed.

Lemma endswith_app (s p : string) : endswith (s ++ p) p = true.
Proof.
  induction s as [|c s IH]; [apply endswith_refl|].
  cbn [String.append endswith]. rewrite IH. now destruct (String.eqb _ p).
Qed.

Lemma drop_last_app (s : string) (c : ascii) : drop_last (s ++ String c "") = s.
Proof.
  induction s as [|d s IH]; [reflexivity|].
  cbn [String.append drop_last]. rewrite IH.
  now destruct s.
Qed.

(** A path or name that is the text of the pattern is matched by it. *)
Lemma rule_items_self (pattern_str : string) :
  match_items (Bol :: rule_items pattern_str ++ [Eol])
    (unrooted (strip_dir pattern_str)) true = true.
Proof.
  unfold rule_items, unrooted, strip_dir.
  set (p := if endswith pattern_str "/" then drop_last pattern_str else pattern_str).
  cbn [app match_items andb].
  destruct (startswith p "/").
  - apply glob_items_self.
  - cbn [app]. apply match_star_skip, glob_items_self.
Qed.

Lemma rule_matches_text (rel name : string) (rule : pattern) :
  rel = unrooted (strip_dir (fst rule)) \/ name = unrooted (strip_dir (fst rule)) ->
  rule_matches rel name rule = true.
Proof.
  unfold rule_matches. rewrite !re_match_rule. cbn [matched].
  intros [-> | ->]; rewrite rule_items_self; [reflexivity | apply orb_true_r].
Qed.

Lemma strip_dir_slash (X : string) : strip_dir (X ++ "/") = X.
Proof. unfold strip_dir. now rewrite endswith_app, drop_last_app. Qed.

Section RuleLoopMore.
Context {host : OsPath}.

Lemma matches_fold (filepath root_dir rel : string) (patterns : list pattern) :
  existsb (String.eqb ".git") (split sep filepath) = false ->
  relpath filepath root_dir = Ok rel ->
  matches_gitignore_pattern filepath patterns root_dir
  = Ok (fold_left
          (fun m rule =>
             if rule_matches rel (basename filepath) rule then negb (snd rule) else m)
          patterns false).
Proof.
  intros Hgit Hrel. unfold matches_gitignore_pattern.
  rewrite Hgit, Hrel. cbn [bind]. apply rule_loop_fold.
Qed.

(** Once excluded, a path stays excluded as long as no negation rule
    matches it. *)
Lemma fold_stays_excluded (rel name : string) (post : list pattern) :
  (forall rule, In rule post -> snd rule = true -> rule_matches rel name rule = false) ->
  fold_left
    (fun m rule => if rule_matches rel name rule then negb (snd rule) else m)
    post true = true.
Proof.
  induction post as [|rule post IH]; intros H; [reflexivity|].
  cbn [fold_left].
  destruct (rule_matches rel name rule) eqn:M.
  - destruct (snd rule) eqn:N.
    + rewrite (H rule (or_introl eq_refl) N) in M. discriminate.
    + apply IH. intros r Hr. apply H. now right.
  - apply IH. intros r Hr. apply H. now right.
Qed.
End RuleLoopMore.

(** ** [posixpath.relpath] of an entry of the working directory *)

Module PosixFacts.
Import Posix.

Lemma endswith_inv (s : string) (c : ascii) :
  endswith s (String c "") = true -> exists s', s = s' ++ String c "".
Proof.
  induction s as [|d s IH]; [discriminate|].
  cbn [endswith]. destruct (String.eqb_spec (String d s) (String c "")) as [E|_].
  - intros _. exists "". exact E.
  - intros H. destruct (IH H) as (s' & ->). now exists (String d s').
Qed.

Lemma split_cons (s : string) : exists p r, split slash s = p :: r.
Proof.
  destruct s as [|c s]; cbn [split]; [now eexists; eexists|].
  destruct (Ascii.eqb c slash); [now eexists; eexists|].
  destruct (split slash s); now eexists; eexists.
Qed.

Lemma split_app_sep (a b : string) :
  split slash (a ++ String slash b) = (split slash a ++ split slash b)%list.
Proof.
  induction a as [|c a IH].
  - cbn [String.append split]. now rewrite Ascii.eqb_refl.
  - cbn [String.append split]. rewrite IH.
    destruct (Ascii.eqb c slash); [reflexivity|].
    destruct (split_cons a) as (p & r & ->). reflexivity.
Qed.

Lemma split_no_sep (x : string) : count slash x = 0 -> split slash x = [x].
Proof.
  induction x as [|c x IH]; [reflexivity|].
  cbn [count split]. destruct (Ascii.eqb c slash); [discriminate|].
  cbn [Nat.add]. intros H. now rewrite (IH H).
Qed.

Lemma split_pieces (s : string) :
  Forall (fun x => count slash x = 0) (split slash s).
Proof.
  induction s as [|c s IH]; [repeat constructor|].
  cbn [split]. destruct (Ascii.eqb c slash) eqn:E.
  - now constructor.
  - destruct (split slash s) as [|p r]; [repeat constructor; cbn; now rewrite E|].
    inversion IH; subst. constructor; [|assumption].
    cbn [count]. now rewrite E.
Qed.

Lemma split_join_clean (l : list string) :
  clean l -> filter nonempty (split slash (PyStr.join "/" l)) = l.
Proof.
  unfold PyStr.join.
  induction l as [|a l IH]; intros H; [reflexivity|].
  inversion H as [|? ? [Ha1 Ha2] Hl]; subst.
  assert (Ea : nonempty a = true)
    by (unfold nonempty; now destruct (String.eqb_spec a "")).
  destruct l as [|b l].
  - cbn [String.concat]. rewrite (split_no_sep a Ha2). cbn [filter]. now rewrite Ea.
  - change (String.concat "/" (a :: b :: l))
      with (a ++ String slash (String.concat "/" (b :: l))).
    rewrite split_app_sep, filter_app, (split_no_sep a Ha2).
    cbn [filter]. rewrite Ea. cbn [app]. f_equal. now apply IH.
Qed.

Lemma clean_removelast (l : list string) : clean l -> clean (removelast l).
Proof.
  unfold clean. induction l as [|a l IH]; intros H; [constructor|].
  inversion H; subst. cbn [removelast]. destruct l; [constructor|].
  constructor; [assumption | now apply IH].
Qed.

Lemma clean_normpath_loop (i : nat) (comps acc : list string) :
  Forall (fun x => count slash x = 0) comps -> clean acc ->
  clean (fold_left (normpath_step i) comps acc).
Proof.
  revert acc. induction comps as [|c comps IH]; intros acc Hc Ha; [exact Ha|].
  inversion Hc; subst. cbn [fold_left]. apply IH; [assumption|].
  unfold normpath_step.
  destruct (String.eqb_spec c ""); [exact Ha|].
  destruct (String.eqb c "."); cbn [orb]; [exact Ha|].
  match goal with |- clean (if ?b then _ else _) => destruct b end.
  - apply Forall_app. split; [exact Ha | now repeat constructor].
  - now apply clean_removelast.
Qed.

Lemma common_len_app (l r : list string) : common_len l (l ++ r) = List.length l.
Proof.
  induction l as [|a l IH]; [now destruct r|].
  cbn [common_len app List.length]. now rewrite String.eqb_refl, IH.
Qed.
End PosixFacts.

Module PosixRelpath.
Import Posix PosixFacts.

Lemma startswith_app (s t p : string) :
  startswith s p = true -> startswith (s ++ t) p = true.
Proof.
  unfold startswith. revert s. induction p as [|c p IH]; intros s.
  - intros _. now destruct (s ++ t).
  - destruct s as [|d s]; [discriminate|]. cbn [String.append String.prefix].
    destruct (ascii_dec c d); [apply IH | discriminate].
Qed.

Lemma append_assoc (a b c : string) : (a ++ b) ++ c = a ++ (b ++ c).
Proof. induction a as [|x a IH]; [reflexivity|]. cbn. now rewrite IH. Qed.

Lemma no_slash_head (x : string) : count slash x = 0 -> startswith x "/" = false.
Proof.
  destruct x as [|c x]; [reflexivity|]. unfold startswith. cbn [count String.prefix].
  destruct (ascii_dec "/" c) as [<-|]; [discriminate | reflexivity].
Qed.

(** Below an absolute working directory, a relative path is the
    directory, one slash, and the path. *)
Lemma join_cwd (cwd : string) :
  isabs cwd = true ->
  exists c, forall y, startswith y "/" = false ->
    join cwd y = c ++ String slash y /\ startswith (c ++ String slash y) "/" = true.
Proof.
  intros Habs. unfold isabs in Habs.
  assert (Hne : String.eqb cwd "" = false) by (now destruct cwd).
  destruct (endswith cwd "/") eqn:E.
  - destruct (endswith_inv cwd slash E) as (c & ->).
    exists c. intros y Hy. unfold join. rewrite Hy, Hne, E. cbn [orb].
    rewrite append_assoc. cbn [String.append]. split; [reflexivity|].
    change (c ++ String slash y) with (c ++ ("/" ++ y)).
    rewrite <- (append_assoc c "/" y). now apply startswith_app.
  - exists cwd. intros y Hy. unfold join. rewrite Hy, Hne, E. cbn [orb].
    split; [reflexivity|]. now apply startswith_app.
Qed.

Lemma initial_slashes_cases (p : string) :
  initial_slashes p = 0 \/ initial_slashes p = 1 \/ initial_slashes p = 2.
Proof.
  unfold initial_slashes. destruct (startswith p "/"); [|now left].
  destruct (startswith p "//" && negb (startswith p "///")); auto.
Qed.

Lemma initial_slashes_abs (p : string) :
  startswith p "/" = true -> initial_slashes p <> 0.
Proof.
  unfold initial_slashes. intros ->.
  now destruct (startswith p "//" && negb (startswith p "///")).
Qed.

Lemma prefix_empty (s : string) : String.prefix "" s = true.
Proof. now destruct s. Qed.

(** The count of leading slashes does not look past the first character
    that is no slash. *)
Lemma initial_slashes_tail (c y1 y2 : string) :
  y1 <> "" -> y2 <> "" -> startswith y1 "/" = false -> startswith y2 "/" = false ->
  initial_slashes (c ++ String slash y1) = initial_slashes (c ++ String slash y2).
Proof.
  intros N1 N2 H1 H2. unfold initial_slashes, startswith in *.
  destruct y1 as [|a1 y1]; [contradiction|].
  destruct y2 as [|a2 y2]; [contradiction|].
  cbn [String.prefix] in H1, H2.
  destruct (ascii_dec "/" a1); [now destruct y1|].
  destruct (ascii_dec "/" a2); [now destruct y2|].
  destruct c as [|c0 [|c1 [|c2 c]]]; cbn [String.append String.prefix];
    repeat match goal with
           | |- context [ascii_dec ?x ?y] => destruct (ascii_dec x y); try contradiction
           end;
    rewrite ?prefix_empty; reflexivity.
Qed.

Lemma split_leading_slashes (i : nat) (s : string) :
  filter nonempty (split slash (times "/" i ++ s)) = filter nonempty (split slash s).
Proof.
  induction i as [|i IH]; [reflexivity|].
  cbn [times String.append split]. exact IH.
Qed.

Lemma normpath_abs (p : string) :
  startswith p "/" = true ->
  normpath p
  = times "/" (initial_slashes p)
    ++ PyStr.join "/"
         (fold_left (normpath_step (initial_slashes p)) (split slash p) []).
Proof.
  intros H. pose proof (initial_slashes_abs p H) as Hi. unfold normpath.
  destruct p as [|a p]; [discriminate|]. cbn [String.eqb].
  destruct (initial_slashes (String a p)); [contradiction | reflexivity].
Qed.

Lemma normpath_step_dot (i : nat) (acc : list string) :
  normpath_step i acc "." = acc.
Proof. reflexivity. Qed.

Lemma normpath_step_name (i : nat) (acc : list string) (x : string) :
  x <> "" -> x <> "." -> x <> ".." -> normpath_step i acc x = (acc ++ [x])%list.
Proof.
  intros H1 H2 H3. unfold normpath_step.
  apply String.eqb_neq in H1, H2, H3. now rewrite H1, H2, H3.
Qed.

(** Relative to the working directory, an entry of it is its own name,
    whatever the (absolute) working directory is. *)
Lemma relpath_entry (cwd x : string) :
  isabs cwd = true -> plain_name x -> relpath cwd x "." = Ok x.
Proof.
  intros Habs (Hne & Hd & Hdd & Hc).
  destruct (join_cwd cwd Habs) as (c & Hj).
  destruct (Hj "." eq_refl) as (J1 & S1).
  destruct (Hj x (no_slash_head x Hc)) as (J2 & S2).
  unfold relpath. rewrite (proj2 (String.eqb_neq x "") Hne).
  unfold abspath. change (isabs ".") with false.
  assert (Ex : isabs x = false) by (now apply no_slash_head).
  rewrite Ex.
  rewrite J1, J2, !normpath_abs by assumption.
  assert (Ei : initial_slashes (c ++ String slash ".")
               = initial_slashes (c ++ String slash x)).
  { apply initial_slashes_tail;
      first [assumption | discriminate | reflexivity | now apply no_slash_head]. }
  rewrite Ei.
  set (i := initial_slashes (c ++ String slash x)).
  rewrite !split_leading_slashes, !split_app_sep, !fold_left_app.
  change (split slash ".") with ["."]. rewrite (split_no_sep x Hc).
  cbn [fold_left]. set (N := fold_left (normpath_step i) (split slash c) []).
  rewrite normpath_step_dot, normpath_step_name by assumption.
  assert (HN : clean N)
    by (apply clean_normpath_loop; [apply split_pieces | constructor]).
  rewrite !split_join_clean
    by first [exact HN
             | apply Forall_app; split; [exact HN | now repeat constructor]].
  rewrite common_len_app, Nat.sub_diag, skipn_app, skipn_all, Nat.sub_diag.
  reflexivity.
Qed.
End PosixRelpath.

(** ** scripts/project-structure.py: the claims *)

Lemma posix_relpath_ok (cwd path start : string) :
  path <> "" -> exists rel, Posix.relpath cwd path start = Ok rel.
Proof.
  intros H. unfold Posix.relpath. rewrite (proj2 (String.eqb_neq path "") H).
  match goal with |- context [match ?l with [] => _ | _ => _ end] => destruct l end;
    eexists; reflexivity.
Qed.

Lemma unrooted_slash (name : string) : unrooted ("/" ++ name) = name.
Proof.
  unfold unrooted, startswith. cbn [String.append String.prefix].
  destruct (ascii_dec "/" "/") as [_|N]; [|now elim N].
  now destruct name.
Qed.

(** C1. [matches_gitignore_pattern] applies every rule, in list order, and
    returns the effect of the last rule that matches the root-relative path
    or the bare name: excluded when that rule is no negation, not excluded
    when it is a negation or when no rule matches.  This is what the
    function returns for every rule list and every candidate, past the
    test on [.git] and the call of [relpath] that come before the loop.
    With the rules [*.log], [!keep.log] the file [keep.log] is not excluded
    and [other.log] is; with [!keep.log] alone, [keep.log] is not
    excluded. *)
Theorem matches_last_rule_wins :
  (forall (host : OsPath) (filepath root_dir : string) (patterns : list pattern),
      matches_gitignore_pattern filepath patterns root_dir
      = if existsb (String.eqb ".git") (split sep filepath) then Ok true
        else (relative_filepath <- relpath filepath root_dir ;;
              Ok (verdict relative_filepath (basename filepath) patterns)))
  /\ (forall cwd : string,
         Posix.isabs cwd = true ->
         @matches_gitignore_pattern (posix cwd) "keep.log"
           [("*.log", false); ("keep.log", true)] "." = Ok false
         /\ @matches_gitignore_pattern (posix cwd) "other.log"
              [("*.log", false); ("keep.log", true)] "." = Ok true
         /\ @matches_gitignore_pattern (posix cwd) "keep.log"
              [("keep.log", true)] "." = Ok false).
Proof.
  split.
  - intros host filepath root_dir patterns.
    destruct (existsb (String.eqb ".git") (split sep filepath)) eqn:Hgit.
    + unfold matches_gitignore_pattern. now rewrite Hgit.
    + destruct (relpath filepath root_dir) as [rel|e] eqn:Hrel; cbn [bind].
      * now apply matches_verdict.
      * unfold matches_gitignore_pattern. now rewrite Hgit, Hrel.
  - intros cwd Habs.
    assert (P : forall x, plain_name x -> @relpath (posix cwd) x "." = Ok x)
      by (intros x Hx; now apply PosixRelpath.relpath_entry).
    assert (K : plain_name "keep.log") by (repeat split; discriminate).
    assert (O : plain_name "other.log") by (repeat split; discriminate).
    repeat split.
    + now rewrite (@matches_verdict (posix cwd) "keep.log" "." _ _ eq_refl (P _ K)).
    + now rewrite (@matches_verdict (posix cwd) "other.log" "." _ _ eq_refl (P _ O)).
    + now rewrite (@matches_verdict (posix cwd) "keep.log" "." _ _ eq_refl (P _ K)).
Qed.

Lemma matches_last_rule_wins_witness :
  Posix.isabs "/home/user/project" = true
  /\ @matches_gitignore_pattern (posix "/home/user/project") "keep.log"
       [("*.log", false); ("keep.log", true)] "." = Ok false
  /\ @matches_gitignore_pattern (posix "/home/user/project") "other.log"
       [("*.log", false); ("keep.log", true)] "." = Ok true
  /\ @matches_gitignore_pattern (posix "/home/user/project") "keep.log"
       [("keep.log", true)] "." = Ok false.
Proof.
  split; [reflexivity|].
  apply (proj2 matches_last_rule_wins "/home/user/project"). reflexivity.
Defined.

(** C2, the claim as stated fails: under the rule [build/] a path below
    [build] is not excluded by the function, and [build] itself is not
    when a later negation rule matches it. *)
Lemma dir_rule_counterexample :
  @matches_gitignore_pattern (posix "/home/user/project") "build/out.js"
    [("build/", false)] "." = Ok false
  /\ @matches_gitignore_pattern (posix "/home/user/project") "build"
       [("build/", false); ("build", true)] "." = Ok false.
Proof. split; reflexivity. Qed.

(** C2, amended.  When the list holds a directory rule [X/] that is no
    negation, and no negation rule after it matches the candidate, the
    function returns true for a candidate whose root-relative path or bare
    name is [X] (without its leading slash when [X] is root-anchored).  A
    candidate the function excludes, below [X] or anywhere, is matched by a
    rule of the list that is no negation. *)
Theorem dir_rule_excludes_directory :
  forall (host : OsPath) (filepath root_dir rel X : string) (pre post : list pattern),
    existsb (String.eqb ".git") (split sep filepath) = false ->
    relpath filepath root_dir = Ok rel ->
    (rel = unrooted X \/ basename filepath = unrooted X
     -> (forall rule, In rule post -> snd rule = true ->
                      rule_matches rel (basename filepath) rule = false)
     -> matches_gitignore_pattern filepath (pre ++ (X ++ "/", false) :: post) root_dir
        = Ok true)
    /\ (forall patterns,
           matches_gitignore_pattern filepath patterns root_dir = Ok true ->
           exists rule, In rule patterns /\ snd rule = false
                        /\ rule_matches rel (basename filepath) rule = true).
Proof.
  intros host filepath root_dir rel X pre post Hgit Hrel. split.
  - intros HX Hpost. rewrite (matches_fold _ _ _ _ Hgit Hrel).
    rewrite fold_left_app. cbn [fold_left snd negb].
    rewrite rule_matches_text
      by (cbn [fst]; now rewrite strip_dir_slash).
    now rewrite fold_stays_excluded.
  - intros patterns. rewrite (matches_verdict _ _ _ _ Hgit Hrel).
    unfold verdict, last_matching.
    destruct (find _ (rev patterns)) as [[p neg]|] eqn:F; [|discriminate].
    intros [= E]. apply find_some in F. destruct F as [Hin Hm].
    exists (p, neg). rewrite <- in_rev in Hin. repeat split; trivial.
    now destruct neg.
Qed.

Lemma dir_rule_excludes_directory_witness :
  existsb (String.eqb ".git") (split (@sep (posix "/home/user/project")) "src/build") = false
  /\ @relpath (posix "/home/user/project") "src/build" "." = Ok "src/build"
  /\ @matches_gitignore_pattern (posix "/home/user/project") "src/build"
       [("*.log", false); ("build/", false); ("*.tmp", true)] "." = Ok true.
Proof.
  split; [reflexivity|]. split; [reflexivity|].
  refine (proj1 (dir_rule_excludes_directory (posix "/home/user/project")
                   "src/build" "." "src/build" "build"
                   [("*.log", false)] [("*.tmp", true)] eq_refl eq_refl) _ _).
  - right. reflexivity.
  - intros rule [<- | []] _. reflexivity.
Defined.

(** C4. A candidate with a path segment [.git] is excluded whatever the
    rules are, negations included: the function answers before it looks at
    any rule. *)
Theorem git_segment_always_excluded :
  forall (host : OsPath) (filepath root_dir : string) (patterns : list pattern),
    In ".git" (split sep filepath) ->
    matches_gitignore_pattern filepath patterns root_dir = Ok true.
Proof.
  intros host filepath root_dir patterns H. unfold matches_gitignore_pattern.
  assert (E : existsb (String.eqb ".git") (split sep filepath) = true).
  { apply existsb_exists. exists ".git". split; [exact H | apply String.eqb_refl]. }
  now rewrite E.
Qed.

Lemma git_segment_always_excluded_witness :
  In ".git" (split (@sep (posix "/home/user/project")) "a/.git/config")
  /\ @matches_gitignore_pattern (posix "/home/user/project") "a/.git/config"
       [(".git", true); ("config", true); ("*", true)] "." = Ok true.
Proof.
  split; [right; left; reflexivity|].
  apply (git_segment_always_excluded (posix "/home/user/project")).
  right. left. reflexivity.
Defined.

(** C10. A root-anchored rule still excludes a file at any depth whose bare
    name it matches: the expression is tried on the bare name too, and the
    leading slash constrains only the test on the root-relative path.  So
    [/foo.txt] excludes [a/b/foo.txt], whose relative path it does not
    match. *)
Theorem anchored_rule_matches_basename :
  (forall (host : OsPath) (filepath root_dir rel pattern_str : string),
      existsb (String.eqb ".git") (split sep filepath) = false ->
      relpath filepath root_dir = Ok rel ->
      re_match (rule_regex ("/" ++ pattern_str)) (basename filepath) = Ok true ->
      matches_gitignore_pattern filepath [("/" ++ pattern_str, false)] root_dir = Ok true)
  /\ (forall (host : OsPath) (filepath root_dir rel name : string),
         existsb (String.eqb ".git") (split sep filepath) = false ->
         relpath filepath root_dir = Ok rel ->
         endswith ("/" ++ name) "/" = false ->
         basename filepath = name ->
         matches_gitignore_pattern filepath [("/" ++ name, false)] root_dir = Ok true)
  /\ (forall cwd : string,
         re_match (rule_regex "/foo.txt") "a/b/foo.txt" = Ok false
         /\ re_match (rule_regex "/foo.txt") (@basename (posix cwd) "a/b/foo.txt") = Ok true
         /\ @matches_gitignore_pattern (posix cwd) "a/b/foo.txt"
              [("/foo.txt", false)] "." = Ok true).
Proof.
  assert (G : forall (host : OsPath) (filepath root_dir rel pattern_str : string),
             existsb (String.eqb ".git") (split sep filepath) = false ->
             relpath filepath root_dir = Ok rel ->
             re_match (rule_regex ("/" ++ pattern_str)) (basename filepath) = Ok true ->
             matches_gitignore_pattern filepath [("/" ++ pattern_str, false)] root_dir
             = Ok true).
  { intros host filepath root_dir rel pattern_str Hgit Hrel Hm.
    rewrite (matches_fold _ _ _ _ Hgit Hrel). cbn [fold_left snd negb].
    unfold rule_matches. cbn [fst]. rewrite Hm. cbn [matched].
    now rewrite orb_true_r. }
  split; [exact G|]. split.
  - intros host filepath root_dir rel name Hgit Hrel Hdir Hname.
    apply (G host filepath root_dir rel name Hgit Hrel).
    rewrite re_match_rule. f_equal.
    pose proof (rule_items_self ("/" ++ name)) as S.
    unfold strip_dir in S. rewrite Hdir, unrooted_slash in S. rewrite Hname. exact S.
  - intros cwd. split; [reflexivity|]. split; [reflexivity|].
    destruct (posix_relpath_ok cwd "a/b/foo.txt" ".") as (rel & Hrel); [discriminate|].
    now apply (G (posix cwd) "a/b/foo.txt" "." rel "foo.txt").
Qed.

Lemma anchored_rule_matches_basename_witness :
  existsb (String.eqb ".git") (split (@sep (posix "/srv/app")) "docs/old/notes.md") = false
  /\ @relpath (posix "/srv/app") "docs/old/notes.md" "." = Ok "docs/old/notes.md"
  /\ endswith "/notes.md" "/" = false
  /\ @basename (posix "/srv/app") "docs/old/notes.md" = "notes.md"
  /\ re_match (rule_regex "/notes.md") "docs/old/notes.md" = Ok false
  /\ @matches_gitignore_pattern (posix "/srv/app") "docs/old/notes.md"
       [("/notes.md", false)] "." = Ok true.
Proof.
  repeat (split; [reflexivity|]).
  apply (proj1 (proj2 anchored_rule_matches_basename) (posix "/srv/app")
           "docs/old/notes.md" "." "docs/old/notes.md" "notes.md");
    reflexivity.
Defined.

(** ** scripts/project-structure.py: reading the rules, writing the tree *)

Lemma parse_loop (l : list string) (acc : list pattern) :
  fold_left
    (fun (patterns : list pattern) (line : string) =>
       let line := strip line in
       if String.eqb line "" || startswith line "#" then patterns
       else if startswith line "!"
            then append patterns (drop_first line, true)
            else append patterns (line, false))
    l acc
  = (acc ++ map rule_of_line (filter kept_line l))%list.
Proof.
  revert acc. induction l as [|line l IH]; intros acc; cbn [fold_left filter].
  - now rewrite app_nil_r.
  - rewrite IH. unfold kept_line, rule_of_line, append. cbv zeta.
    destruct (String.eqb (strip line) ""); cbn [orb negb andb]; [reflexivity|].
    destruct (startswith (strip line) "#"); cbn [negb map]; [reflexivity|].
    destruct (startswith (strip line) "!"); now rewrite <- app_assoc.
Qed.

(** C7. [parse_gitignore] returns, in file order, one [(pattern, negation)]
    entry for each line that is not blank once stripped and does not start
    with [#]: for a line that starts with [!] the pattern is the rest of
    the stripped line and the flag is true, otherwise the pattern is the
    stripped line and the flag is false.  When the rules file does not
    exist the result is the empty list, not an error. *)
Theorem parse_gitignore_rules :
  (forall (w : world) (gitignore_path : string),
      path_exists w gitignore_path = false ->
      parse_gitignore w gitignore_path = Ok [])
  /\ (forall (w : world) (gitignore_path content : string),
         lookup w gitignore_path = Some (NFile (Ok content)) ->
         parse_gitignore w gitignore_path
         = Ok (map rule_of_line (filter kept_line (file_lines content)))).
Proof.
  split.
  - intros w gitignore_path H. unfold parse_gitignore. now rewrite H.
  - intros w gitignore_path content H.
    unfold parse_gitignore, path_exists, open_read. rewrite H. cbn [bind]. f_equal.
    apply parse_loop.
Qed.

Lemma parse_gitignore_rules_witness :
  path_exists rules_world "elsewhere/.gitignore" = false
  /\ parse_gitignore rules_world "elsewhere/.gitignore" = Ok []
  /\ lookup rules_world "proj/.gitignore" = Some (NFile (Ok rules_text))
  /\ parse_gitignore rules_world "proj/.gitignore"
     = Ok [("*.log", false); ("keep.log", true); ("build/", false); ("/TODO", false)].
Proof.
  split; [reflexivity|].
  split; [apply (proj1 parse_gitignore_rules); reflexivity|].
  split; [reflexivity|].
  rewrite (proj2 parse_gitignore_rules rules_world "proj/.gitignore" rules_text eq_refl).
  reflexivity.
Defined.

(** C3, on the code.  The test that skips a directory is guarded by
    [dirpath != root_dir], so for the root it is never made: whatever the
    rules are, the body of the loop writes the line of the root and goes on
    to its files.  In the example the root [proj] matches the exclusion
    rule [proj], and [proj/] is written all the same, followed by the
    children of the root. *)
Theorem root_line_written_for_excluded_root :
  (forall (host : OsPath) (patterns : list pattern) (root_dir : string)
          (out dirnames filenames : list string),
      structure_body patterns root_dir out root_dir dirnames filenames
      = (kept <- comprehension
                   (fun d =>
                      m <- matches_gitignore_pattern (path_join root_dir d)
                             patterns root_dir ;;
                      Ok (negb m))
                   dirnames ;;
         out <- for_each
                  (fun (out : list string) (filename : string) =>
                     m <- matches_gitignore_pattern (path_join root_dir filename)
                            patterns root_dir ;;
                     Ok (if negb m
                         then append out
                                (times (times " " 4)
                                   (count sep (replace root_dir "" root_dir) + 1)
                                 ++ filename ++ String nl "")
                         else out))
                  filenames
                  (append out
                     (times (times " " 4) (count sep (replace root_dir "" root_dir))
                      ++ basename root_dir ++ "/" ++ String nl "")) ;;
         Ok (kept, out)))
  /\ @matches_gitignore_pattern (posix "/home/user") "proj" [("proj", false)] "proj"
     = Ok true
  /\ parse_gitignore excluded_root_world "proj/.gitignore" = Ok [("proj", false)]
  /\ @generate_project_structure_doc (posix "/home/user") excluded_root_world "proj"
     = Ok ["Project Structure for: proj" ++ String nl "";
           "==============================" ++ String nl (String nl "");
           "proj/" ++ String nl "";
           "    .gitignore" ++ String nl "";
           "    a.txt" ++ String nl "";
           "    sub/" ++ String nl "";
           "        b.txt" ++ String nl ""].
Proof.
  split.
  - intros host patterns root_dir out dirnames filenames.
    unfold structure_body. rewrite String.eqb_refl. cbn [negb bind].
    reflexivity.
  - repeat split; vm_compute; reflexivity.
Qed.

(** ** scripts/create-ai-transfer-doc.py *)

Lemma for_each_app {A S : Type} (body : S -> A -> result S) (l1 l2 : list A) (acc : S) :
  for_each body (l1 ++ l2) acc = (acc' <- for_each body l1 acc ;; for_each body l2 acc').
Proof.
  revert acc. induction l1 as [|x l1 IH]; intros acc; [reflexivity|].
  cbn [app for_each]. destruct (body acc x); cbn [bind]; [apply IH | reflexivity].
Qed.

Lemma replace_char (a b : ascii) (s : string) :
  replace (String a "") (String b "") s
  = map_chars (fun c => if Ascii.eqb c a then b else c) s.
Proof.
  unfold replace. induction s as [|c s IH]; [reflexivity|].
  cbn [replace_from map_chars String.prefix String.length Nat.sub].
  rewrite IH. destruct (ascii_dec a c) as [<-|N].
  - rewrite Ascii.eqb_refl. now destruct s.
  - apply not_eq_sym in N. apply Ascii.eqb_neq in N. now rewrite N.
Qed.

Section Concatenate.
Context {host : OsPath}.

Lemma inner_loop_entries (directory_path root : string)
    (files : list (string * result string)) (st : run) :
  for_each (concatenate_file directory_path root) files st
  = for_each (entry_step directory_path)
      (map (pair root) (filter (fun file => endswith (fst file) ".ts") files)) st.
Proof.
  revert st. induction files as [|[file_name read] files IH]; intros st; [reflexivity|].
  cbn [for_each filter fst]. destruct (endswith file_name ".ts") eqn:E.
  - cbn [map for_each]. unfold entry_step at 1. cbn [fst snd].
    destruct (concatenate_file directory_path root st (file_name, read));
      cbn [bind]; [apply IH | reflexivity].
  - unfold concatenate_file at 1. rewrite E. cbn [bind]. apply IH.
Qed.

Lemma outer_loop_entries (directory_path : string)
    (triples : list (string * list string * list (string * result string)))
    (st : run) :
  for_each
    (fun (st : run) (triple : string * list string * list (string * result string)) =>
       let '(root, _, files) := triple in
       for_each (concatenate_file directory_path root) files st)
    triples st
  = for_each (entry_step directory_path)
      (flat_map
         (fun triple : string * list string * list (string * result string) =>
            map (pair (fst (fst triple)))
              (filter (fun file => endswith (fst file) ".ts") (snd triple)))
         triples) st.
Proof.
  revert st. induction triples as [|[[root dirs] files] triples IH]; intros st;
    [reflexivity|].
  cbn [for_each flat_map fst snd]. rewrite for_each_app, inner_loop_entries.
  destruct (for_each (entry_step directory_path) _ st); cbn [bind];
    [apply IH | reflexivity].
Qed.

Lemma normalized_path_forward (relative_path : string) :
  replace (String sep "") "/" relative_path = forward_slashes relative_path.
Proof. apply replace_char. Qed.

(** One entry whose relative path is found adds its block and its log. *)
Lemma entry_step_spec (directory_path : string) (st : run)
    (entry : string * (string * result string)) (rel : string) :
  endswith (fst (snd entry)) ".ts" = true ->
  relpath (path_join (fst entry) (fst (snd entry))) directory_path = Ok rel ->
  entry_step directory_path st entry
  = Ok (Run (concatenated_content st ++ entry_block directory_path entry)
            (printed st ++ entry_log directory_path entry)).
Proof.
  destruct entry as [root [file_name read]]. cbn [fst snd]. intros Hts Hrel.
  unfold entry_step, concatenate_file, entry_block, entry_log, normalized_path_of.
  cbn [fst snd]. rewrite Hts, Hrel. cbn [bind]. rewrite normalized_path_forward.
  destruct read as [content|e]; unfold append, file_block, file_log.
  - now rewrite <- app_assoc, app_nil_r.
  - reflexivity.
Qed.

Lemma entries_run (directory_path : string)
    (entries : list (string * (string * result string))) (st : run) :
  Forall (fun entry => endswith (fst (snd entry)) ".ts" = true) entries ->
  Forall (fun entry =>
            exists rel,
              relpath (path_join (fst entry) (fst (snd entry))) directory_path = Ok rel)
    entries ->
  for_each (entry_step directory_path) entries st
  = Ok (Run (concatenated_content st ++ flat_map (entry_block directory_path) entries)
            (printed st ++ flat_map (entry_log directory_path) entries)).
Proof.
  revert st. induction entries as [|entry entries IH]; intros st Hts Hrel.
  - cbn [for_each flat_map]. rewrite !app_nil_r. now destruct st.
  - inversion Hts as [|? ? T Hts']; subst. inversion Hrel as [|? ? [rel R] Hrel']; subst.
    cbn [for_each flat_map]. rewrite (entry_step_spec _ _ _ rel T R). cbn [bind].
    rewrite (IH _ Hts' Hrel'). cbn [concatenated_content printed].
    now rewrite !app_assoc.
Qed.

Lemma ts_entries_are_ts (w : world) (directory_path : string) :
  Forall (fun entry => endswith (fst (snd entry)) ".ts" = true)
    (ts_entries w directory_path).
Proof.
  unfold ts_entries. apply Forall_forall. intros entry H.
  apply in_flat_map in H. destruct H as (triple & _ & H).
  apply in_map_iff in H. destruct H as (file & <- & H).
  apply filter_In in H. now destruct H.
Qed.

(** The run over an existing directory, when [relpath] raises on none of
    the files. *)
Lemma concatenate_entries (w : world) (directory_path : string) :
  isdir w directory_path = true ->
  Forall (fun entry =>
            exists rel,
              relpath (path_join (fst entry) (fst (snd entry))) directory_path = Ok rel)
    (ts_entries w directory_path) ->
  concatenate_typescript_files w directory_path
  = Ok (PyStr.join (String nl "")
          (flat_map (entry_block directory_path) (ts_entries w directory_path)),
        flat_map (entry_log directory_path) (ts_entries w directory_path)).
Proof.
  intros Hdir Hrel. unfold concatenate_typescript_files. rewrite Hdir. cbn [negb].
  rewrite outer_loop_entries. fold (ts_entries w directory_path).
  rewrite (entries_run _ _ _ (ts_entries_are_ts w directory_path) Hrel).
  reflexivity.
Qed.
End Concatenate.

(** ** The walk on a POSIX host *)

Section WalkFacts.
Context {host : OsPath}.

Lemma walk_dir_eq (top : string) (subdirs : list (string * dir))
    (files : list (string * result string)) :
  walk_dir top (Dir subdirs files)
  = (top, map fst subdirs, files)
    :: flat_map (fun entry => walk_dir (path_join top (fst entry)) (snd entry)) subdirs.
Proof.
  cbn [walk_dir]. f_equal.
  induction subdirs as [|[name sub] l IH]; [reflexivity|].
  cbn [flat_map fst snd]. now rewrite <- IH.
Qed.
End WalkFacts.

Lemma posix_join_nonempty (a b : string) : a <> "" -> Posix.join a b <> "".
Proof.
  intros Ha. unfold Posix.join.
  destruct (startswith b "/") eqn:S.
  - destruct b; [discriminate S | discriminate].
  - destruct a as [|c a]; [contradiction|].
    destruct (_ || _); discriminate.
Qed.

(** Every directory the walk visits has a non-empty path. *)
Lemma posix_walk_roots (cwd : string) (d : dir) :
  forall top, top <> "" ->
    Forall (fun triple : string * list string * list (string * result string) =>
              fst (fst triple) <> "")
      (@walk_dir (posix cwd) top d).
Proof.
  induction d as [subdirs files IH] using dir_ind. intros top Htop.
  rewrite walk_dir_eq. constructor; [exact Htop|].
  apply Forall_flat_map. rewrite Forall_forall in IH |- *.
  intros entry Hin. apply (IH entry Hin). now apply posix_join_nonempty.
Qed.

Lemma posix_entries_relpath (cwd : string) (w : world) (directory_path : string) :
  directory_path <> "" ->
  Forall (fun entry =>
            exists rel,
              @relpath (posix cwd)
                (@path_join (posix cwd) (fst entry) (fst (snd entry))) directory_path
              = Ok rel)
    (@ts_entries (posix cwd) w directory_path).
Proof.
  intros Hp. unfold ts_entries, os_walk.
  destruct (lookup w directory_path) as [[r|d]|]; try constructor.
  pose proof (posix_walk_roots cwd d directory_path Hp) as R.
  rewrite Forall_forall in R |- *. intros entry H.
  apply in_flat_map in H. destruct H as (triple & Ht & H).
  apply in_map_iff in H. destruct H as (file & <- & _). cbn [fst snd].
  apply posix_relpath_ok, posix_join_nonempty, (R triple Ht).
Qed.

(** ** scripts/create-ai-transfer-doc.py: the claims *)

(** C5. When the source directory does not exist,
    [concatenate_typescript_files] returns a message that starts with
    [Error:] and has processed no file; the main program prints the message
    and writes no file. *)
Theorem missing_directory_reports_error :
  forall (host : OsPath) (w : world),
    (forall directory_path : string,
        isdir w directory_path = false ->
        concatenate_typescript_files w directory_path
        = Ok ("Error: Directory '" ++ directory_path ++ "' not found.", [])
        /\ startswith ("Error: Directory '" ++ directory_path ++ "' not found.") "Error:"
           = true)
    /\ (isdir w ts_source_directory = false ->
        main w
        = Ok (Outcome ["Concatenating TypeScript files from: src";
                       "Error: Directory 'src' not found."] [])).
Proof.
  intros host w. split.
  - intros directory_path H. unfold concatenate_typescript_files. now rewrite H.
  - intros H. unfold main, concatenate_typescript_files. now rewrite H.
Qed.

Lemma missing_directory_reports_error_witness :
  isdir empty_world "src" = false
  /\ @concatenate_typescript_files (posix "/home/user/project") empty_world "src"
     = Ok ("Error: Directory 'src' not found.", [])
  /\ written_of (@main (posix "/home/user/project") empty_world) = Some [].
Proof.
  split; [reflexivity|].
  destruct (missing_directory_reports_error (posix "/home/user/project") empty_world)
    as [C M].
  split.
  - exact (proj1 (C "src" eq_refl)).
  - now rewrite (M eq_refl).
Defined.

(** C6. A read failure on one [.ts] file does not abort the run.  When the
    entries of the traversal are [before], the failing file, [after], the
    function returns normally; the collected strings are the blocks of
    [before], one comment line with the normalized relative path of the
    failing file and the reason, and the blocks of [after]. *)
Theorem read_failure_is_recorded_inline :
  forall (cwd : string) (w : world) (directory_path root file_name : string) (e : exn)
         (before after : list (string * (string * result string))),
    directory_path <> "" ->
    isdir w directory_path = true ->
    @ts_entries (posix cwd) w directory_path
    = (before ++ (root, (file_name, Raise e)) :: after)%list ->
    exists relative_path,
      Posix.relpath cwd (Posix.join root file_name) directory_path = Ok relative_path
      /\ @concatenate_typescript_files (posix cwd) w directory_path
         = Ok (PyStr.join (String nl "")
                 (flat_map (@entry_block (posix cwd) directory_path) before
                  ++ [("// Error reading " ++ replace "/" "/" relative_path ++ ": "
                        ++ exn_msg e ++ String nl "")%string]
                  ++ flat_map (@entry_block (posix cwd) directory_path) after),
               (flat_map (@entry_log (posix cwd) directory_path) before
                ++ [("Error reading " ++ replace "/" "/" relative_path ++ ": "
                      ++ exn_msg e)%string]
                ++ flat_map (@entry_log (posix cwd) directory_path) after)%list).
Proof.
  intros cwd w directory_path root file_name e before after Hp Hdir Hsplit.
  pose proof (posix_entries_relpath cwd w directory_path Hp) as Hrel.
  rewrite (@concatenate_entries (posix cwd) w directory_path Hdir Hrel).
  rewrite Hsplit in Hrel |- *.
  apply Forall_app in Hrel. destruct Hrel as [_ Hrel].
  inversion Hrel as [|? ? [rel R] _]; subst. cbn [fst snd] in R.
  exists rel. split; [exact R|].
  rewrite !flat_map_app. cbn [flat_map].
  unfold entry_block at 2, entry_log at 2, normalized_path_of. cbn [fst snd].
  rewrite R. cbn [file_block file_log].
  rewrite <- (@normalized_path_forward (posix cwd)).
  reflexivity.
Qed.

Lemma read_failure_is_recorded_inline_witness :
  "src" <> ""
  /\ isdir failing_world "src" = true
  /\ @ts_entries (posix "/home/user/project") failing_world "src"
     = [("src", ("a.ts", Ok "let a = 1;"));
        ("src/lib", ("locked.ts",
                     Raise (Exn "PermissionError"
                              "[Errno 13] Permission denied: 'src/lib/locked.ts'")));
        ("src/lib", ("z.ts", Ok "let z = 26;"))]
  /\ exists relative_path,
       Posix.relpath "/home/user/project" (Posix.join "src/lib" "locked.ts") "src"
       = Ok relative_path
       /\ @concatenate_typescript_files (posix "/home/user/project") failing_world "src"
          = Ok (PyStr.join (String nl "")
                  (flat_map (@entry_block (posix "/home/user/project") "src")
                     [("src", ("a.ts", Ok "let a = 1;"))]
                   ++ [("// Error reading " ++ replace "/" "/" relative_path ++ ": "
                         ++ "[Errno 13] Permission denied: 'src/lib/locked.ts'"
                         ++ String nl "")%string]
                   ++ flat_map (@entry_block (posix "/home/user/project") "src")
                        [("src/lib", ("z.ts", Ok "let z = 26;"))]),
                (flat_map (@entry_log (posix "/home/user/project") "src")
                   [("src", ("a.ts", Ok "let a = 1;"))]
                 ++ [("Error reading " ++ replace "/" "/" relative_path ++ ": "
                       ++ "[Errno 13] Permission denied: 'src/lib/locked.ts'")%string]
                 ++ flat_map (@entry_log (posix "/home/user/project") "src")
                      [("src/lib", ("z.ts", Ok "let z = 26;"))])%list).
Proof.
  split; [discriminate|]. split; [reflexivity|]. split; [reflexivity|].
  apply (read_failure_is_recorded_inline "/home/user/project" failing_world "src"
           "src/lib" "locked.ts"
           (Exn "PermissionError" "[Errno 13] Permission denied: 'src/lib/locked.ts'")
           [("src", ("a.ts", Ok "let a = 1;"))]
           [("src/lib", ("z.ts", Ok "let z = 26;"))]).
  - discriminate.
  - reflexivity.
  - reflexivity.
Defined.

Lemma map_chars_length (f : ascii -> ascii) (s : string) :
  String.length (map_chars f s) = String.length s.
Proof. induction s as [|c s IH]; [reflexivity|]. cbn. now rewrite IH. Qed.

Lemma forward_slashes_no_sep {host : OsPath} (s : string) :
  sep <> "/"%char -> count sep (forward_slashes s) = 0.
Proof.
  intros H. unfold forward_slashes. induction s as [|c s IH]; [reflexivity|].
  cbn [map_chars count]. rewrite IH.
  destruct (Ascii.eqb_spec c sep) as [->|N].
  - apply not_eq_sym in H. apply Ascii.eqb_neq in H. now rewrite H.
  - apply Ascii.eqb_neq in N. now rewrite N.
Qed.

(** C8. For a [.ts] file that is read, the comment line is [// src/]
    followed by the path relative to the source directory in which every
    occurrence of the host separator has become a slash; no other character
    changes, and when the host separator is not the slash itself none is
    left in the path written.  The string a run returns is made of these
    lines, one block for each file. *)
Theorem written_path_uses_forward_slashes :
  forall (host : OsPath),
    (forall (directory_path root file_name content relative_path : string) (st : run),
        endswith file_name ".ts" = true ->
        relpath (path_join root file_name) directory_path = Ok relative_path ->
        concatenate_file directory_path root st (file_name, Ok content)
        = Ok (Run (concatenated_content st
                   ++ ["// !!-- START OF FILE --!!";
                       ("// src/" ++ forward_slashes relative_path ++ String nl ""
                        ++ content ++ String nl "")%string])
                  (printed st)))
    /\ (forall (w : world) (directory_path : string),
           isdir w directory_path = true ->
           Forall (fun entry =>
                     exists rel,
                       relpath (path_join (fst entry) (fst (snd entry))) directory_path
                       = Ok rel)
             (ts_entries w directory_path) ->
           concatenate_typescript_files w directory_path
           = Ok (PyStr.join (String nl "")
                   (flat_map (entry_block directory_path) (ts_entries w directory_path)),
                 flat_map (entry_log directory_path) (ts_entries w directory_path)))
    /\ (forall relative_path : string,
           forward_slashes relative_path
           = map_chars (fun c => if Ascii.eqb c sep then "/"%char else c) relative_path
           /\ String.length (forward_slashes relative_path) = String.length relative_path
           /\ (sep <> "/"%char -> count sep (forward_slashes relative_path) = 0)).
Proof.
  intros host. split; [|split].
  - intros directory_path root file_name content relative_path st Hts Hrel.
    unfold concatenate_file. rewrite Hts, Hrel. cbn [bind].
    rewrite normalized_path_forward. unfold append.
    now rewrite <- app_assoc.
  - apply concatenate_entries.
  - intros relative_path. split; [reflexivity|]. split.
    + apply map_chars_length.
    + apply forward_slashes_no_sep.
Qed.

Lemma written_path_uses_forward_slashes_witness :
  endswith "user.service.ts" ".ts" = true
  /\ @relpath backslash_host
       (@path_join backslash_host "src\users" "user.service.ts") "src"
     = Ok "users\user.service.ts"
  /\ @concatenate_file backslash_host "src" "src\users" (Run [] [])
       ("user.service.ts", Ok "export class UserService {}")
     = Ok (Run ["// !!-- START OF FILE --!!";
                "// src/users/user.service.ts" ++ String nl ""
                  ++ "export class UserService {}" ++ String nl ""] [])
  /\ count (@sep backslash_host) "users/user.service.ts" = 0.
Proof.
  split; [reflexivity|]. split; [reflexivity|].
  destruct (written_path_uses_forward_slashes backslash_host) as (F & _ & S).
  split.
  - exact (F "src" "src\users" "user.service.ts" "export class UserService {}"
             "users\user.service.ts" (Run [] []) eq_refl eq_refl).
  - apply (proj2 (proj2 (S "users\user.service.ts"))). discriminate.
Defined.

(** C9. [concatenate_typescript_files] is a function of the directory it is
    given: two runs that find the same tree, with the same result of
    reading each file, return the same string and print the same lines, and
    the main program writes the same text to the output file. *)
Theorem concatenation_is_deterministic :
  forall (host : OsPath) (w1 w2 : world),
    (forall directory_path : string,
        lookup w1 directory_path = lookup w2 directory_path ->
        concatenate_typescript_files w1 directory_path
        = concatenate_typescript_files w2 directory_path)
    /\ (lookup w1 ts_source_directory = lookup w2 ts_source_directory ->
        open_for_write w1 output_file_name = open_for_write w2 output_file_name ->
        main w1 = main w2).
Proof.
  intros host w1 w2.
  assert (C : forall directory_path : string,
             lookup w1 directory_path = lookup w2 directory_path ->
             concatenate_typescript_files w1 directory_path
             = concatenate_typescript_files w2 directory_path).
  { intros directory_path H.
    unfold concatenate_typescript_files, isdir, os_walk. now rewrite H. }
  split; [exact C|].
  intros Hsrc Hout. unfold main. rewrite (C _ Hsrc), Hout. reflexivity.
Qed.

Lemma concatenation_is_deterministic_witness :
  lookup failing_world "src" = lookup failing_world_later "src"
  /\ open_for_write failing_world "full_project_source.ts"
     = open_for_write failing_world_later "full_project_source.ts"
  /\ @concatenate_typescript_files (posix "/home/user/project") failing_world "src"
     = @concatenate_typescript_files (posix "/home/user/project") failing_world_later "src"
  /\ @main (posix "/home/user/project") failing_world
     = @main (posix "/home/user/project") failing_world_later.
Proof.
  split; [reflexivity|]. split; [reflexivity|].
  destruct (concatenation_is_deterministic (posix "/home/user/project")
              failing_world failing_world_later) as [C M].
  split; [apply C | apply M]; reflexivity.
Defined.

(** * Further properties *)

(** ** The expression of a rule, read as a glob *)

Lemma glob_items_glob (p s : string) (bos : bool) :
  match_items (glob_items p ++ [Eol]) s bos = true <-> glob p s.
Proof.
  split.
  - revert s bos. induction p as [|x p IH]; intros s bos.
    + cbn [glob_items app match_items]. rewrite andb_true_r. apply glob_at_end.
    + cbn [glob_items app]. unfold glob_item.
      destruct (Ascii.eqb_spec x "*") as [->|Nstar].
      * revert bos. induction s as [|c s IHs]; intros bos;
          rewrite match_star_unfold; intros H; apply orb_prop in H.
        -- destruct H as [H|H]; [|discriminate].
           apply glob_star_none. now apply (IH _ bos).
        -- destruct H as [H|H].
           ++ apply glob_star_none. now apply (IH _ bos).
           ++ apply andb_prop in H. destruct H as [Hc H].
              apply glob_star_more; [|now apply (IHs false)].
              cbn [atom_matches] in Hc. intros ->.
              now rewrite Ascii.eqb_refl in Hc.
      * destruct (Ascii.eqb_spec x "?") as [->|Nq].
        -- destruct s as [|c s]; cbn [match_items]; [discriminate|].
           intros H. apply andb_prop in H. destruct H as [Hc H].
           apply glob_question; [|now apply (IH _ false)].
           cbn [atom_matches] in Hc. intros ->.
           now rewrite Ascii.eqb_refl in Hc.
        -- destruct s as [|c s]; cbn [match_items]; [discriminate|].
           intros H. apply andb_prop in H. destruct H as [Hc H].
           cbn [atom_matches] in Hc. apply Ascii.eqb_eq in Hc. subst c.
           apply glob_same; trivial. now apply (IH _ false).
  - intros G. revert bos. induction G as [s E|p s G IH|p s c N G IH|p s c N G IH|x p s N1 N2 G IH];
      intros bos.
    + cbn [glob_items app match_items]. now rewrite E.
    + cbn [glob_items app]. change (glob_item "*") with (Star Dot).
      apply match_star_skip. apply IH.
    + specialize (IH false). cbn [glob_items app] in IH |- *.
      change (glob_item "*") with (Star Dot) in IH |- *.
      rewrite match_star_unfold, IH. cbn [atom_matches].
      apply Ascii.eqb_neq in N. rewrite N. apply orb_true_r.
    + cbn [glob_items app]. change (glob_item "?") with (One Dot).
      cbn [match_items atom_matches]. apply Ascii.eqb_neq in N. now rewrite N, IH.
    + cbn [glob_items app]. unfold glob_item.
      apply Ascii.eqb_neq in N1, N2. rewrite N1, N2.
      cbn [match_items atom_matches]. now rewrite Ascii.eqb_refl, IH.
Qed.

Lemma rule_items_glob (pattern_str : string) :
  (rule_items pattern_str ++ [Eol])%list = (glob_items (rule_glob pattern_str) ++ [Eol])%list.
Proof.
  unfold rule_items, rule_glob, strip_dir.
  now destruct (startswith _ "/").
Qed.

Lemma rule_expression_is_glob_aux (pattern_str s : string) :
  (exists b, re_match (rule_regex pattern_str) s = Ok b)
  /\ (re_match (rule_regex pattern_str) s = Ok true <-> glob (rule_glob pattern_str) s).
Proof.
  rewrite re_match_rule. split; [now eexists|].
  cbn [app match_items andb]. rewrite rule_items_glob, <- glob_items_glob.
  split; [now intros [= ->] | now intros ->].
Qed.

(** X1. The expression built from a rule always compiles, and it matches
    exactly the subjects its glob reading matches: the pattern without its
    trailing slash, as it stands when it starts with a slash and behind a
    [*] when it does not. *)
Theorem rule_expression_is_glob :
  forall pattern_str s : string,
    (exists b, re_match (rule_regex pattern_str) s = Ok b)
    /\ (re_match (rule_regex pattern_str) s = Ok true <-> glob (rule_glob pattern_str) s).
Proof.
  intros pattern_str s. rewrite re_match_rule. split; [now eexists|].
  cbn [app match_items andb]. rewrite rule_items_glob.
  rewrite <- (glob_items_glob (rule_glob pattern_str) s true).
  split; [now intros [= ->] | now intros ->].
Qed.

Lemma literal_cons (x : ascii) (q : string) :
  literal (String x q) -> x <> "*"%char /\ x <> "?"%char /\ literal q.
Proof.
  unfold literal. cbn [count]. intros [H1 H2].
  destruct (Ascii.eqb_spec x "*"); [discriminate|].
  destruct (Ascii.eqb_spec x "?"); [discriminate|].
  now repeat split.
Qed.

Lemma at_end_cases (s : string) :
  at_end s = true <-> s = "" \/ s = String nl "".
Proof.
  destruct s as [|c [|d s]]; cbn [at_end].
  - split; [now left | reflexivity].
  - split.
    + intros H. apply Ascii.eqb_eq in H. subst c. now right.
    + intros [H|H]; [discriminate|]. injection H as ->. apply Ascii.eqb_refl.
  - split; [discriminate | intros [H|H]; discriminate].
Qed.

(** Without wildcards a glob matches its own text, with or without one LF
    after it, and nothing else. *)
Lemma glob_literal (q s : string) :
  literal q -> (glob q s <-> s = q \/ s = q ++ String nl "").
Proof.
  intros L. revert s. induction q as [|x q IH]; intros s.
  - split.
    + intros G. inversion G; subst. now apply at_end_cases.
    + intros H. apply glob_at_end. now apply at_end_cases.
  - destruct (literal_cons x q L) as (N1 & N2 & Lq). split.
    + intros G. inversion G; subst; try congruence.
      match goal with H : glob q _ |- _ => apply (IH Lq) in H; destruct H as [->| ->] end;
        [now left | now right].
    + intros [-> | ->]; cbn [String.append]; apply glob_same; trivial; apply (IH Lq);
        [now left | now right].
Qed.

Lemma no_lf_cons (c : ascii) (s : string) :
  no_lf (String c s) <-> c <> nl /\ no_lf s.
Proof.
  unfold no_lf. cbn [count]. destruct (Ascii.eqb_spec c nl) as [->|N].
  - split; [discriminate | now intros [H _]].
  - now split; [intros H | intros [_ H]].
Qed.

(** A leading [*] takes any run of characters other than LF. *)
Lemma glob_star_prefix (q s : string) :
  glob (String "*" q) s
  <-> exists pre rest, s = pre ++ rest /\ no_lf pre /\ glob q rest.
Proof.
  split.
  - intros G. remember (String "*" q) as p eqn:E. revert E.
    induction G as [s A|p s G IH|p s c N G IH|p s c N G IH|x p s N1 N2 G IH];
      intros E; try discriminate; try (injection E as E1 E2; congruence).
    + injection E as ->. exists "", s. now repeat split.
    + destruct (IH E) as (pre & rest & -> & Hpre & Hrest).
      exists (String c pre), rest. repeat split; trivial. now apply no_lf_cons.
  - intros (pre & rest & -> & Hpre & Hrest).
    induction pre as [|c pre IH]; cbn [String.append].
    + now apply glob_star_none.
    + apply no_lf_cons in Hpre. destruct Hpre as [N Hpre].
      apply glob_star_more; [exact N | now apply IH].
Qed.

Lemma startswith_slash_app (q : string) : startswith ("/" ++ q) "/" = true.
Proof.
  unfold startswith. cbn [String.append String.prefix].
  destruct (ascii_dec "/" "/") as [_|N]; [now destruct q | now elim N].
Qed.

Lemma strip_dir_anchored (q : string) :
  q <> "" -> endswith q "/" = false -> strip_dir ("/" ++ q) = "/" ++ q.
Proof.
  intros Hne Hdir. unfold strip_dir. cbn [String.append endswith].
  destruct (String.eqb_spec (String "/" q) "/") as [E|_].
  - injection E as ->. contradiction.
  - now rewrite Hdir.
Qed.

(** X2. A rule without wildcards.  Anchored by a leading slash, it matches
    its own text and nothing else (one LF may follow).  Unanchored, it
    matches every subject that ends with its text, whatever stands in
    front on the same line: the rule [log] matches [catalog] as well as
    [a/log]. *)
Theorem literal_rule_matches :
  forall q s : string,
    literal q -> q <> "" -> endswith q "/" = false ->
    (re_match (rule_regex ("/" ++ q)) s = Ok true
     <-> s = q \/ s = q ++ String nl "")
    /\ (startswith q "/" = false ->
        (re_match (rule_regex q) s = Ok true
         <-> exists pre, no_lf pre /\ (s = pre ++ q \/ s = pre ++ q ++ String nl ""))).
Proof.
  intros q s L Hne Hdir. split.
  - rewrite (proj2 (rule_expression_is_glob_aux ("/" ++ q) s)).
    assert (E : rule_glob ("/" ++ q) = q).
    { unfold rule_glob. rewrite (strip_dir_anchored q Hne Hdir).
      now rewrite startswith_slash_app. }
    rewrite E. now apply glob_literal.
  - intros Hroot. rewrite (proj2 (rule_expression_is_glob_aux q s)).
    unfold rule_glob, strip_dir. rewrite Hdir, Hroot. rewrite glob_star_prefix.
    split.
    + intros (pre & rest & -> & Hpre & G). exists pre. split; [exact Hpre|].
      apply (glob_literal q rest L) in G. destruct G as [-> | ->]; auto.
    + intros (pre & Hpre & [-> | ->]).
      * exists pre, q. repeat split; trivial. apply (glob_literal q q L). now left.
      * exists pre, (q ++ String nl ""). repeat split; trivial.
        apply (glob_literal q _ L). now right.
Qed.

Lemma literal_rule_matches_witness :
  literal "log" /\ "log" <> "" /\ endswith "log" "/" = false
  /\ startswith "log" "/" = false
  /\ re_match (rule_regex "log") "catalog" = Ok true.
Proof.
  split; [split; reflexivity|]. split; [discriminate|].
  split; [reflexivity|]. split; [reflexivity|].
  apply (proj2 (literal_rule_matches "log" "catalog" (conj eq_refl eq_refl)
                  ltac:(discriminate) eq_refl) eq_refl).
  exists "cata". split; [reflexivity | now left].
Defined.

(** ** The matcher as a whole *)

Section MatcherFacts.
Context {host : OsPath}.

Lemma matches_git (filepath root_dir : string) (patterns : list pattern) :
  existsb (String.eqb ".git") (split sep filepath) = true ->
  matches_gitignore_pattern filepath patterns root_dir = Ok true.
Proof. intros H. unfold matches_gitignore_pattern. now rewrite H. Qed.

Lemma matches_raise (filepath root_dir : string) (patterns : list pattern) (e : exn) :
  existsb (String.eqb ".git") (split sep filepath) = false ->
  relpath filepath root_dir = Raise e ->
  matches_gitignore_pattern filepath patterns root_dir = Raise e.
Proof. intros H R. unfold matches_gitignore_pattern. now rewrite H, R. Qed.

(** A rule that matches decides alone; the value before it is forgotten. *)
Lemma fold_rules_restart (rel name : string) (l : list pattern) (m : bool) :
  fold_left
    (fun m rule => if rule_matches rel name rule then negb (snd rule) else m) l m
  = if existsb (rule_matches rel name) l
    then fold_left
           (fun m rule => if rule_matches rel name rule then negb (snd rule) else m)
           l false
    else m.
Proof.
  revert m. induction l as [|rule l IH]; intros m; [reflexivity|].
  cbn [fold_left existsb]. destruct (rule_matches rel name rule); cbn [orb].
  - now destruct (existsb (rule_matches rel name) l).
  - apply IH.
Qed.

Lemma fold_rules_negations (rel name : string) (l : list pattern) :
  Forall (fun rule : pattern => snd rule = true) l ->
  fold_left
    (fun m rule => if rule_matches rel name rule then negb (snd rule) else m) l false
  = false.
Proof.
  induction 1 as [|rule l N _ IH]; [reflexivity|].
  cbn [fold_left]. rewrite N. cbn [negb].
  now destruct (rule_matches rel name rule).
Qed.

Lemma fold_rules_exclusions (rel name : string) (l : list pattern) (m : bool) :
  Forall (fun rule : pattern => snd rule = false) l ->
  fold_left
    (fun m rule => if rule_matches rel name rule then negb (snd rule) else m) l m
  = m || existsb (rule_matches rel name) l.
Proof.
  intros H. revert m. induction H as [|rule l N _ IH]; intros m.
  - now rewrite orb_false_r.
  - cbn [fold_left existsb]. rewrite IH, N. cbn [negb].
    destruct (rule_matches rel name rule); cbn [orb].
    + now rewrite orb_true_r.
    + reflexivity.
Qed.
End MatcherFacts.

(** X3. The only exception [matches_gitignore_pattern] lets out is the one
    [relpath] raises: no rule, whatever its text, makes the expression fail
    to compile.  Under posixpath the function answers for every non-empty
    candidate and raises [ValueError] for the empty one. *)
Theorem matcher_raises_only_from_relpath :
  (forall (host : OsPath) (filepath root_dir : string) (patterns : list pattern)
          (e : exn),
      matches_gitignore_pattern filepath patterns root_dir = Raise e ->
      relpath filepath root_dir = Raise e)
  /\ (forall (cwd filepath root_dir : string) (patterns : list pattern),
         filepath <> "" ->
         exists b,
           @matches_gitignore_pattern (posix cwd) filepath patterns root_dir = Ok b)
  /\ (forall (cwd root_dir : string) (patterns : list pattern),
         @matches_gitignore_pattern (posix cwd) "" patterns root_dir
         = Raise (Exn "ValueError" "no path specified")).
Proof.
  split; [|split].
  - intros host filepath root_dir patterns e H.
    destruct (existsb (String.eqb ".git") (split sep filepath)) eqn:G.
    + rewrite (matches_git _ _ _ G) in H. discriminate.
    + destruct (relpath filepath root_dir) as [rel|e'] eqn:R.
      * rewrite (matches_verdict _ _ _ _ G R) in H. discriminate.
      * rewrite (matches_raise _ _ _ _ G R) in H. now injection H as ->.
  - intros cwd filepath root_dir patterns Hne.
    destruct (existsb (String.eqb ".git") (split (@sep (posix cwd)) filepath)) eqn:G.
    + exists true. now apply (@matches_git (posix cwd)).
    + destruct (posix_relpath_ok cwd filepath root_dir Hne) as (rel & R).
      eexists. now apply (@matches_verdict (posix cwd) filepath root_dir rel).
  - intros cwd root_dir patterns. reflexivity.
Qed.

Lemma matcher_raises_only_from_relpath_witness :
  @matches_gitignore_pattern (posix "/home/user/project") "" [("*(", false)] "."
  = Raise (Exn "ValueError" "no path specified")
  /\ @relpath (posix "/home/user/project") "" "."
     = Raise (Exn "ValueError" "no path specified")
  /\ "a(b[.txt" <> ""
  /\ exists b,
       @matches_gitignore_pattern (posix "/home/user/project") "a(b[.txt"
         [("*(", false); ("[", true); ("+?\", false)] "." = Ok b.
Proof.
  split; [reflexivity|].
  split.
  - apply (proj1 matcher_raises_only_from_relpath (posix "/home/user/project")
             "" "." [("*(", false)]). reflexivity.
  - split; [discriminate|].
    apply (proj1 (proj2 matcher_raises_only_from_relpath)). discriminate.
Defined.

(** X4. Rule lists compose: on [pats1 ++ pats2] the answer is that of
    [pats2] alone when one of its rules matches the candidate, and that of
    [pats1] alone when none does. *)
Theorem rule_lists_compose :
  forall (host : OsPath) (filepath root_dir rel : string) (pats1 pats2 : list pattern),
    relpath filepath root_dir = Ok rel ->
    matches_gitignore_pattern filepath (pats1 ++ pats2) root_dir
    = if existsb (rule_matches rel (basename filepath)) pats2
      then matches_gitignore_pattern filepath pats2 root_dir
      else matches_gitignore_pattern filepath pats1 root_dir.
Proof.
  intros host filepath root_dir rel pats1 pats2 R.
  destruct (existsb (String.eqb ".git") (split sep filepath)) eqn:G.
  - rewrite !(matches_git _ _ _ G). now destruct (existsb _ pats2).
  - rewrite !(matches_fold _ _ _ _ G R), fold_left_app, fold_rules_restart.
    now destruct (existsb _ pats2).
Qed.

Lemma rule_lists_compose_witness :
  @relpath (posix "/home/user/project") "logs/keep.log" "." = Ok "logs/keep.log"
  /\ @matches_gitignore_pattern (posix "/home/user/project") "logs/keep.log"
       ([("*.log", false)] ++ [("*.tmp", false); ("keep.*", true)]) "."
     = @matches_gitignore_pattern (posix "/home/user/project") "logs/keep.log"
         [("*.tmp", false); ("keep.*", true)] "."
  /\ @matches_gitignore_pattern (posix "/home/user/project") "logs/keep.log"
       ([("*.log", false)] ++ [("*.tmp", false)]) "."
     = @matches_gitignore_pattern (posix "/home/user/project") "logs/keep.log"
         [("*.log", false)] ".".
Proof.
  split; [reflexivity|]. split.
  - exact (rule_lists_compose (posix "/home/user/project") "logs/keep.log" "."
             "logs/keep.log" [("*.log", false)]
             [("*.tmp", false); ("keep.*", true)] eq_refl).
  - exact (rule_lists_compose (posix "/home/user/project") "logs/keep.log" "."
             "logs/keep.log" [("*.log", false)] [("*.tmp", false)] eq_refl).
Defined.

(** X5. One-sided rule lists.  A list of negation rules only never
    excludes a candidate; with a list without negation rules a candidate is
    excluded exactly when some rule matches it, whatever the order. *)
Theorem one_sided_rule_lists :
  forall (host : OsPath) (filepath root_dir rel : string) (patterns : list pattern),
    existsb (String.eqb ".git") (split sep filepath) = false ->
    relpath filepath root_dir = Ok rel ->
    (Forall (fun rule : pattern => snd rule = true) patterns ->
     matches_gitignore_pattern filepath patterns root_dir = Ok false)
    /\ (Forall (fun rule : pattern => snd rule = false) patterns ->
        matches_gitignore_pattern filepath patterns root_dir
        = Ok (existsb (rule_matches rel (basename filepath)) patterns)).
Proof.
  intros host filepath root_dir rel patterns G R.
  rewrite (matches_fold _ _ _ _ G R). split; intros H.
  - now rewrite fold_rules_negations.
  - now rewrite fold_rules_exclusions.
Qed.

Lemma one_sided_rule_lists_witness :
  existsb (String.eqb ".git") (split (@sep (posix "/srv/app")) "src/main.ts") = false
  /\ @relpath (posix "/srv/app") "src/main.ts" "." = Ok "src/main.ts"
  /\ @matches_gitignore_pattern (posix "/srv/app") "src/main.ts"
       [("*.ts", true); ("src/", true); ("*", true)] "." = Ok false
  /\ @matches_gitignore_pattern (posix "/srv/app") "src/main.ts"
       [("*.js", false); ("main.*", false)] "." = Ok true.
Proof.
  split; [reflexivity|]. split; [reflexivity|]. split.
  - apply (proj1 (one_sided_rule_lists (posix "/srv/app") "src/main.ts" "."
                    "src/main.ts" _ eq_refl eq_refl)).
    repeat constructor.
  - rewrite (proj2 (one_sided_rule_lists (posix "/srv/app") "src/main.ts" "."
                      "src/main.ts" [("*.js", false); ("main.*", false)]
                      eq_refl eq_refl)); [reflexivity | repeat constructor].
Defined.

Lemma append_empty_r (s : string) : s ++ "" = s.
Proof. induction s as [|c s IH]; [reflexivity|]. cbn. now rewrite IH. Qed.

Lemma glob_stars (n : nat) (s : string) : no_lf s -> glob (times "*" (S n)) s.
Proof.
  intros H. cbn [times String.append]. apply glob_star_prefix.
  exists s, "". split; [now rewrite append_empty_r|]. split; [exact H|].
  induction n as [|n IH]; cbn [times String.append].
  - now apply glob_at_end.
  - now apply glob_star_none.
Qed.

Lemma stars_unanchored (n : nat) : startswith (times "*" n) "/" = false.
Proof. now destruct n. Qed.

(** X6. A rule whose pattern, once the trailing slash is taken off, is
    empty or made of stars only ([*], [**], a lone [/], the empty pattern a
    line [!] leaves) matches every candidate whose relative path or bare
    name holds no LF.  Last in the list it decides alone: as an exclusion
    it excludes everything, as a negation it cancels every rule before
    it. *)
Theorem catch_all_rule_decides :
  forall (host : OsPath) (filepath root_dir rel pattern_str : string)
         (pre : list pattern) (is_negation : bool) (n : nat),
    existsb (String.eqb ".git") (split sep filepath) = false ->
    relpath filepath root_dir = Ok rel ->
    strip_dir pattern_str = times "*" n ->
    no_lf rel \/ no_lf (basename filepath) ->
    matches_gitignore_pattern filepath (pre ++ [(pattern_str, is_negation)]) root_dir
    = Ok (negb is_negation).
Proof.
  intros host filepath root_dir rel pattern_str pre is_negation n G R Hp Hs.
  assert (M : forall s, no_lf s -> re_match (rule_regex pattern_str) s = Ok true).
  { intros s Hlf. apply (proj2 (rule_expression_is_glob_aux pattern_str s)).
    unfold rule_glob. rewrite Hp, stars_unanchored.
    now apply (glob_stars n). }
  rewrite (matches_fold _ _ _ _ G R), fold_left_app. cbn [fold_left snd].
  unfold rule_matches. cbn [fst].
  destruct Hs as [Hs|Hs]; rewrite (M _ Hs); cbn [matched orb]; [reflexivity|].
  now rewrite orb_true_r.
Qed.

Lemma catch_all_rule_decides_witness :
  existsb (String.eqb ".git") (split (@sep (posix "/srv/app")) "build/out.js") = false
  /\ @relpath (posix "/srv/app") "build/out.js" "." = Ok "build/out.js"
  /\ strip_dir "" = times "*" 0
  /\ (no_lf "build/out.js" \/ no_lf (@basename (posix "/srv/app") "build/out.js"))
  /\ @matches_gitignore_pattern (posix "/srv/app") "build/out.js"
       ([("build/", false); ("*.js", false)] ++ [("", true)]) "." = Ok false.
Proof.
  split; [reflexivity|]. split; [reflexivity|]. split; [reflexivity|].
  split; [left; reflexivity|].
  apply (catch_all_rule_decides (posix "/srv/app") "build/out.js" "." "build/out.js"
           "" [("build/", false); ("*.js", false)] true 0 eq_refl eq_refl eq_refl).
  left. reflexivity.
Defined.

(** ** What [parse_gitignore] stores *)

Lemma lstrip_head (s : string) :
  match lstrip s with
  | EmptyString => True
  | String c _ => isspace c = false
  end.
Proof.
  induction s as [|c s IH]; [exact I|].
  cbn [lstrip]. destruct (isspace c) eqn:E; [exact IH | exact E].
Qed.

Lemma lstrip_fixed (c : ascii) (s : string) :
  isspace c = false -> lstrip (String c s) = String c s.
Proof. intros H. cbn [lstrip]. now rewrite H. Qed.

Lemma rstrip_cons (c : ascii) (s : string) :
  rstrip (String c s)
  = match rstrip s with
    | EmptyString => if isspace c then EmptyString else String c EmptyString
    | String _ _ as r => String c r
    end.
Proof. reflexivity. Qed.

Lemma rstrip_idempotent (s : string) : rstrip (rstrip s) = rstrip s.
Proof.
  induction s as [|c s IH]; [reflexivity|].
  rewrite rstrip_cons. destruct (rstrip s) as [|d r] eqn:E.
  - destruct (isspace c) eqn:Hc; [reflexivity|]. cbn [rstrip]. now rewrite Hc.
  - rewrite rstrip_cons, IH. reflexivity.
Qed.

Lemma rstrip_head (c : ascii) (s : string) :
  isspace c = false -> exists t, rstrip (String c s) = String c t.
Proof.
  intros H. cbn [rstrip]. destruct (rstrip s) as [|d r].
  - rewrite H. now exists "".
  - now eexists.
Qed.

Lemma strip_idempotent (s : string) : strip (strip s) = strip s.
Proof.
  unfold strip. pose proof (lstrip_head s) as H.
  destruct (lstrip s) as [|c t]; [reflexivity|].
  destruct (rstrip_head c t H) as (u & E). rewrite E.
  rewrite (lstrip_fixed c u H), <- E. apply rstrip_idempotent.
Qed.

Lemma keepends_lines (s : string) : Forall lf_only_last (keepends s).
Proof.
  induction s as [|c s IH]; [constructor|].
  cbn [keepends]. destruct (Ascii.eqb_spec c nl) as [->|N].
  - constructor; [now split | exact IH].
  - destruct (keepends s) as [|line rest].
    + constructor; [|constructor]. split; [now intros | exact I].
    + inversion IH; subst. constructor; [|assumption].
      split; [now intros | assumption].
Qed.

Lemma lstrip_lf_only_last (s : string) : lf_only_last s -> lf_only_last (lstrip s).
Proof.
  induction s as [|c s IH]; [trivial|].
  intros H. cbn [lstrip]. destruct (isspace c); [apply IH, H | exact H].
Qed.

Lemma rstrip_no_lf (s : string) : lf_only_last s -> no_lf (rstrip s).
Proof.
  unfold no_lf. induction s as [|c s IH]; [reflexivity|].
  intros [Hc Hs]. cbn [rstrip]. specialize (IH Hs).
  destruct (Ascii.eqb_spec c nl) as [->|N].
  - rewrite (Hc eq_refl). reflexivity.
  - apply Ascii.eqb_neq in N.
    destruct (rstrip s) as [|d r].
    + destruct (isspace c); [reflexivity|]. cbn [count]. now rewrite N.
    + cbn [count] in IH |- *. now rewrite N.
Qed.

Lemma strip_no_lf (s : string) : lf_only_last s -> no_lf (strip s).
Proof. intros H. apply rstrip_no_lf, lstrip_lf_only_last, H. Qed.

Lemma drop_first_no_lf (s : string) : no_lf s -> no_lf (drop_first s).
Proof.
  destruct s as [|c s]; [trivial|]. intros H. now apply no_lf_cons in H.
Qed.

Lemma startswith_char (s : string) (c : ascii) :
  startswith s (String c "") = true -> s = String c (drop_first s).
Proof.
  unfold startswith. destruct s as [|d s]; [discriminate|]. cbn [String.prefix drop_first].
  destruct (ascii_dec c d) as [->|]; [reflexivity | discriminate].
Qed.

(** X7. What [parse_gitignore] stores.  A pattern that is no negation is
    not empty, starts with neither [#] nor [!], and has no white space
    around it; a negation pattern is what followed the [!] of such a
    line, and may be empty.  No stored pattern holds a line feed. *)
Theorem parsed_rules_are_stripped_lines :
  forall (w : world) (gitignore_path pattern_str : string) (is_negation : bool)
         (patterns : list pattern),
    parse_gitignore w gitignore_path = Ok patterns ->
    In (pattern_str, is_negation) patterns ->
    no_lf pattern_str
    /\ (is_negation = false ->
        pattern_str <> "" /\ strip pattern_str = pattern_str
        /\ startswith pattern_str "#" = false /\ startswith pattern_str "!" = false)
    /\ (is_negation = true -> strip ("!" ++ pattern_str) = "!" ++ pattern_str).
Proof.
  intros w gitignore_path pattern_str is_negation patterns Hp Hin.
  unfold parse_gitignore in Hp.
  destruct (path_exists w gitignore_path).
  2:{ injection Hp as <-. destruct Hin. }
  destruct (open_read w gitignore_path) as [content|e]; [|discriminate].
  cbn [bind] in Hp. rewrite parse_loop in Hp. injection Hp as <-.
  cbn [app] in Hin. apply in_map_iff in Hin. destruct Hin as (line & E & Hin).
  apply filter_In in Hin. destruct Hin as [Hin K].
  assert (L : no_lf (strip line)).
  { apply strip_no_lf. pose proof (keepends_lines (universal_newlines content)) as F.
    rewrite Forall_forall in F. now apply F. }
  unfold kept_line in K. apply andb_prop in K. destruct K as [K1 K2].
  apply negb_true_iff in K1, K2. unfold rule_of_line in E.
  destruct (startswith (strip line) "!") eqn:B; injection E as <- <-.
  - split; [now apply drop_first_no_lf|]. split; [discriminate|]. intros _.
    change ("!" ++ drop_first (strip line)) with (String "!" (drop_first (strip line))).
    rewrite <- (startswith_char _ _ B). apply strip_idempotent.
  - split; [exact L|]. split; [|discriminate]. intros _.
    repeat split; trivial.
    + now apply String.eqb_neq.
    + apply strip_idempotent.
Qed.

Lemma parsed_rules_are_stripped_lines_witness :
  parse_gitignore rules_world "proj/.gitignore"
  = Ok [("*.log", false); ("keep.log", true); ("build/", false); ("/TODO", false)]
  /\ In ("keep.log", true)
       [("*.log", false); ("keep.log", true); ("build/", false); ("/TODO", false)]
  /\ no_lf "keep.log"
  /\ strip "!keep.log" = "!keep.log".
Proof.
  split; [reflexivity|]. split; [right; left; reflexivity|].
  destruct (parsed_rules_are_stripped_lines rules_world "proj/.gitignore" "keep.log" true
              _ eq_refl (or_intror (or_introl eq_refl))) as (H1 & _ & H3).
  split; [exact H1 | exact (H3 eq_refl)].
Defined.

(** ** The walk of tree mode *)

Section PruningWalk.
Context {host : OsPath}.

Lemma walk_pruning_eq {S : Type}
    (body : S -> string -> list string -> list string -> result (list string * S))
    (top : string) (subdirs : list (string * dir))
    (files : list (string * result string)) (acc : S) :
  walk_pruning body top (Dir subdirs files) acc
  = (r <- body acc top (map fst subdirs) (map fst files) ;;
     descend_into body top (fst r) subdirs (snd r)).
Proof.
  cbn [walk_pruning].
  destruct (body acc top (map fst subdirs) (map fst files)) as [r|e]; [|reflexivity].
  cbn [bind]. generalize (snd r). induction subdirs as [|[name sub] l IH]; intros a.
  - reflexivity.
  - cbn [descend_into]. destruct (existsb (String.eqb name) (fst r)).
    + destruct (walk_pruning body (path_join top name) sub a); cbn [bind];
        [apply IH | reflexivity].
    + apply IH.
Qed.






Lemma comprehension_kept {A : Type} (keep : A -> result bool) (l kept : list A) (x : A) :
  comprehension keep l = Ok kept -> In x kept -> keep x = Ok true.
Proof.
  revert kept. induction l as [|y l IH]; intros kept H Hin.
  - injection H as <-. destruct Hin.
  - cbn [comprehension] in H. destruct (keep y) as [k|e] eqn:K; [|discriminate].
    cbn [bind] in H. destruct (comprehension keep l) as [rest|e]; [|discriminate].
    cbn [bind] in H. injection H as <-. destruct k.
    + destruct Hin as [<-|Hin]; [exact K | now apply (IH rest)].
    + now apply (IH rest).
Qed.

(** The names [structure_body] leaves in [dirnames] are those the matcher
    does not exclude. *)
Lemma structure_body_kept (patterns : list pattern) (root_dir dirpath : string)
    (out dirnames filenames : list string) (r : list string * list string) :
  structure_body patterns root_dir out dirpath dirnames filenames = Ok r ->
  comprehension
    (fun d =>
       m <- matches_gitignore_pattern (path_join dirpath d) patterns root_dir ;;
       Ok (negb m))
    dirnames
  = Ok (fst r).
Proof.
  unfold structure_body.
  destruct (comprehension _ dirnames) as [kept|e]; [|discriminate]. cbn [bind].
  destruct (if negb (String.eqb dirpath root_dir) then _ else _) as [skip|e];
    [|discriminate].
  cbn [bind]. destruct skip.
  - now intros [= <-].
  - destruct (for_each _ filenames _) as [o|e]; [|discriminate]. cbn [bind].
    now intros [= <-].
Qed.

End PruningWalk.

Section TreeFacts.
Context {host : OsPath}.






(** A subdirectory the matcher excludes is not entered. *)
Lemma descend_into_skips {S : Type}
    (body : S -> string -> list string -> list string -> result (list string * S))
    (top name : string) (kept : list string) (sub sub' : dir)
    (l1 l2 : list (string * dir)) (acc : S) :
  existsb (String.eqb name) kept = false ->
  descend_into body top kept (l1 ++ (name, sub) :: l2) acc
  = descend_into body top kept (l1 ++ (name, sub') :: l2) acc.
Proof.
  intros H. revert acc. induction l1 as [|[n d] l1 IH]; intros acc.
  - cbn [app descend_into]. now rewrite H.
  - cbn [app descend_into]. destruct (existsb (String.eqb n) kept); [|apply IH].
    destruct (walk_pruning body (path_join top n) d acc); cbn [bind];
      [apply IH | reflexivity].
Qed.

Lemma structure_walk_skips (patterns : list pattern) (root_dir top name : string)
    (sub sub' : dir) (l1 l2 : list (string * dir))
    (files : list (string * result string)) (out : list string) :
  matches_gitignore_pattern (path_join top name) patterns root_dir = Ok true ->
  walk_pruning (structure_body patterns root_dir) top
    (Dir (l1 ++ (name, sub) :: l2) files) out
  = walk_pruning (structure_body patterns root_dir) top
      (Dir (l1 ++ (name, sub') :: l2) files) out.
Proof.
  intros M. rewrite !walk_pruning_eq, !map_app. cbn [map fst].
  destruct (structure_body patterns root_dir out top _ (map fst files)) as [r|e] eqn:B;
    [|reflexivity].
  cbn [bind]. apply descend_into_skips.
  destruct (existsb (String.eqb name) (fst r)) eqn:E; [|reflexivity].
  apply existsb_exists in E. destruct E as (x & Hin & E).
  apply String.eqb_eq in E. subst x.
  apply structure_body_kept in B.
  pose proof (comprehension_kept _ _ _ _ B Hin) as K. cbv beta in K.
  rewrite M in K. discriminate.
Qed.

Lemma comprehension_drop {A : Type} (keep : A -> result bool) (a b : list A) (x : A) :
  keep x = Ok false ->
  comprehension keep (a ++ x :: b) = comprehension keep (a ++ b).
Proof.
  intros K. induction a as [|y a IH]; cbn [app comprehension].
  - rewrite K. cbn [bind]. now destruct (comprehension keep b).
  - now rewrite IH.
Qed.

Lemma descend_into_drops {S : Type}
    (body : S -> string -> list string -> list string -> result (list string * S))
    (top name : string) (kept : list string) (sub : dir)
    (l1 l2 : list (string * dir)) (acc : S) :
  existsb (String.eqb name) kept = false ->
  descend_into body top kept (l1 ++ (name, sub) :: l2) acc
  = descend_into body top kept (l1 ++ l2) acc.
Proof.
  intros H. revert acc. induction l1 as [|[n d] l1 IH]; intros acc.
  - cbn [app descend_into]. now rewrite H.
  - cbn [app descend_into]. destruct (existsb (String.eqb n) kept); [|apply IH].
    destruct (walk_pruning body (path_join top n) d acc); cbn [bind];
      [apply IH | reflexivity].
Qed.

(** An excluded subdirectory can be taken out of the tree: the document
    stays the same. *)
Lemma structure_walk_drops (patterns : list pattern) (root_dir top name : string)
    (sub : dir) (l1 l2 : list (string * dir))
    (files : list (string * result string)) (out : list string) :
  matches_gitignore_pattern (path_join top name) patterns root_dir = Ok true ->
  walk_pruning (structure_body patterns root_dir) top
    (Dir (l1 ++ (name, sub) :: l2) files) out
  = walk_pruning (structure_body patterns root_dir) top (Dir (l1 ++ l2) files) out.
Proof.
  intros M. rewrite !walk_pruning_eq, !map_app. cbn [map fst].
  assert (B : structure_body patterns root_dir out top
                (map fst l1 ++ name :: map fst l2) (map fst files)
              = structure_body patterns root_dir out top
                  (map fst l1 ++ map fst l2) (map fst files)).
  { unfold structure_body. rewrite comprehension_drop; [reflexivity|].
    now rewrite M. }
  rewrite <- B.
  destruct (structure_body patterns root_dir out top _ (map fst files)) as [r|e] eqn:E;
    [|reflexivity].
  cbn [bind]. apply descend_into_drops.
  destruct (existsb (String.eqb name) (fst r)) eqn:X; [|reflexivity].
  apply existsb_exists in X. destruct X as (x & Hin & X).
  apply String.eqb_eq in X. subst x.
  apply structure_body_kept in E.
  pose proof (comprehension_kept _ _ _ _ E Hin) as K. cbv beta in K.
  rewrite M in K. discriminate.
Qed.

Lemma walk_records (d : dir) :
  forall (top : string) (acc : list (string * list string * list string)),
    walk_pruning record_triple top d acc
    = Ok (acc ++ map (fun triple : string * list string * list (string * result string) =>
                        (fst (fst triple), snd (fst triple), map fst (snd triple)))
                   (walk_dir top d))%list.
Proof.
  induction d as [subdirs files IH] using dir_ind. intros top acc.
  rewrite walk_pruning_eq, walk_dir_eq. unfold record_triple at 1.
  cbn [bind fst snd map].
  set (kept := map fst subdirs).
  assert (D : forall l a,
             Forall (fun entry : string * dir =>
                       forall top acc,
                         walk_pruning record_triple top (snd entry) acc
                         = Ok (acc ++ map (fun triple : string * list string
                                                       * list (string * result string) =>
                                             (fst (fst triple), snd (fst triple),
                                              map fst (snd triple)))
                                        (walk_dir top (snd entry)))%list) l ->
             incl (map fst l) kept ->
             descend_into record_triple top kept l a
             = Ok (a ++ map (fun triple : string * list string
                                          * list (string * result string) =>
                               (fst (fst triple), snd (fst triple), map fst (snd triple)))
                          (flat_map
                             (fun entry => walk_dir (path_join top (fst entry)) (snd entry))
                             l))%list).
  { clearbody kept. clear IH.
    induction l as [|[name sub] l IHl]; intros a F K.
    - cbn [descend_into flat_map map]. now rewrite app_nil_r.
    - inversion F as [|? ? Hsub Hl]; subst. cbn [descend_into flat_map].
      assert (E : existsb (String.eqb name) kept = true).
      { apply existsb_exists. exists name. split; [|apply String.eqb_refl].
        apply K. now left. }
      rewrite E. cbn [fst snd] in Hsub |- *. rewrite Hsub. cbn [bind].
      rewrite IHl; [|assumption | intros x Hx; apply K; now right].
      now rewrite map_app, app_assoc. }
  rewrite (D subdirs _ IH (incl_refl _)). now rewrite <- app_assoc.
Qed.
End TreeFacts.

(** ** Tree mode: the claims about the document *)





(** X10. A subdirectory the matcher excludes is pruned from the walk: it
    gets no line, and what it holds is never looked at.  At every depth
    the walk writes what it would write if the directory were not there,
    and the whole document is the same whatever stands below it. *)
Theorem excluded_directory_is_never_entered :
  forall (host : OsPath) (patterns : list pattern) (root_dir top name : string)
         (sub sub' : dir) (l1 l2 : list (string * dir))
         (files : list (string * result string)),
    matches_gitignore_pattern (path_join top name) patterns root_dir = Ok true ->
    (forall out : list string,
        walk_pruning (structure_body patterns root_dir) top
          (Dir (l1 ++ (name, sub) :: l2) files) out
        = walk_pruning (structure_body patterns root_dir) top
            (Dir (l1 ++ l2) files) out)
    /\ (forall w w' : world,
           top = root_dir ->
           parse_gitignore w (path_join root_dir ".gitignore") = Ok patterns ->
           parse_gitignore w' (path_join root_dir ".gitignore") = Ok patterns ->
           lookup w root_dir = Some (NDir (Dir (l1 ++ (name, sub) :: l2) files)) ->
           lookup w' root_dir = Some (NDir (Dir (l1 ++ (name, sub') :: l2) files)) ->
           generate_project_structure_doc w root_dir
           = generate_project_structure_doc w' root_dir).
Proof.
  intros host patterns root_dir top name sub sub' l1 l2 files M. split.
  - intros out. now apply structure_walk_drops.
  - intros w w' -> P P' L L'.
    unfold generate_project_structure_doc, os_walk_pruning.
    rewrite P, P', L, L'. cbn [bind]. now apply structure_walk_skips.
Qed.

Lemma excluded_directory_is_never_entered_witness :
  @matches_gitignore_pattern (posix "/home/user")
    (@path_join (posix "/home/user") "proj" "node_modules")
    [("node_modules/", false)] "proj" = Ok true
  /\ @generate_project_structure_doc (posix "/home/user")
       (pruned_world (Dir [] [])) "proj"
     = @generate_project_structure_doc (posix "/home/user")
         (pruned_world (Dir [("left-pad", Dir [] [("index.js", Ok "pad")])]
                            [("package.json", Ok "{}")])) "proj".
Proof.
  split; [reflexivity|].
  apply (proj2 (excluded_directory_is_never_entered (posix "/home/user")
                  [("node_modules/", false)] "proj" "proj" "node_modules"
                  (Dir [] [])
                  (Dir [("left-pad", Dir [] [("index.js", Ok "pad")])]
                       [("package.json", Ok "{}")])
                  [] [("src", Dir [] [("main.ts", Ok "main")])]
                  [(".gitignore", Ok (lines ["node_modules/"]))] eq_refl));
    reflexivity.
Defined.

(** The two readings of [os.walk] agree.  A loop body that leaves
    [dirnames] as it finds it is given exactly the triples of the plain
    walk, in the same order: every directory is visited before its
    subdirectories, and those in listing order. *)
Lemma walk_without_pruning_is_plain_walk :
  forall (host : OsPath) (w : world) (top : string),
    os_walk_pruning record_triple w top []
    = Ok (map (fun triple : string * list string * list (string * result string) =>
                 (fst (fst triple), snd (fst triple), map fst (snd triple)))
            (os_walk w top)).
Proof.
  intros host w top. unfold os_walk_pruning, os_walk.
  destruct (lookup w top) as [[r|d]|]; try reflexivity.
  apply (walk_records d top []).
Qed.

(** ** Concatenation mode: the string returned and the main program *)

Section ConcatenateFacts.
Context {host : OsPath}.

Lemma concatenate_by_entries (w : world) (directory_path : string) :
  isdir w directory_path = true ->
  concatenate_typescript_files w directory_path
  = (st <- for_each (entry_step directory_path) (ts_entries w directory_path)
             (Run [] []) ;;
     Ok (PyStr.join (String nl "") (concatenated_content st), printed st)).
Proof.
  intros H. unfold concatenate_typescript_files. rewrite H. cbn [negb].
  now rewrite outer_loop_entries.
Qed.

Lemma file_block_head (normalized_path : string) (read : result string) :
  exists first rest,
    file_block normalized_path read = String "/" first :: rest.
Proof. destruct read; now eexists; eexists. Qed.

(** The collected strings never read as the error message. *)
Lemma blocks_not_error (directory_path : string)
    (entries : list (string * (string * result string))) :
  startswith
    (PyStr.join (String nl "") (flat_map (entry_block directory_path) entries))
    "Error:" = false.
Proof.
  destruct entries as [|entry entries]; [reflexivity|].
  cbn [flat_map]. unfold entry_block at 1.
  destruct (file_block_head (normalized_path_of directory_path entry) (snd (snd entry)))
    as (first & rest & ->).
  cbn [app]. unfold PyStr.join, startswith.
  destruct (rest ++ flat_map (entry_block directory_path) entries)%list;
    reflexivity.
Qed.

Lemma join_holds (sep_str x : string) (l : list string) :
  In x l -> exists a b, PyStr.join sep_str l = a ++ x ++ b.
Proof.
  unfold PyStr.join. induction l as [|y l IH]; [now intros []|].
  intros [->|Hin].
  - exists "". destruct l as [|z l].
    + exists "". cbn. now rewrite append_empty_r.
    + now exists (sep_str ++ String.concat sep_str (z :: l)).
  - destruct (IH Hin) as (a & b & E). destruct l as [|z l]; [destruct Hin|].
    exists (y ++ sep_str ++ a), b.
    change (String.concat sep_str (y :: z :: l))
      with (y ++ sep_str ++ String.concat sep_str (z :: l)).
    rewrite E. now rewrite !PosixRelpath.append_assoc.
Qed.
End ConcatenateFacts.

(** X11. The string returned depends on the directory only through the
    [.ts] files met, in order, each with its directory, its name and what
    reading it gives: files of other names, empty directories and the
    listing of subdirectories leave no trace. *)
Theorem concatenation_sees_only_ts_files :
  forall (host : OsPath) (w1 w2 : world) (directory_path : string),
    isdir w1 directory_path = true ->
    isdir w2 directory_path = true ->
    ts_entries w1 directory_path = ts_entries w2 directory_path ->
    concatenate_typescript_files w1 directory_path
    = concatenate_typescript_files w2 directory_path.
Proof.
  intros host w1 w2 directory_path H1 H2 E.
  now rewrite !concatenate_by_entries, E.
Qed.

(** X12. A directory without any [.ts] file gives the empty string and
    prints nothing; the main program then writes an empty output file. *)
Theorem no_ts_file_gives_empty_output :
  forall (host : OsPath) (w : world),
    (forall directory_path : string,
        isdir w directory_path = true ->
        Forall (fun triple : string * list string * list (string * result string) =>
                  Forall (fun file => endswith (fst file) ".ts" = false) (snd triple))
          (os_walk w directory_path) ->
        concatenate_typescript_files w directory_path = Ok ("", []))
    /\ (isdir w ts_source_directory = true ->
        Forall (fun triple : string * list string * list (string * result string) =>
                  Forall (fun file => endswith (fst file) ".ts" = false) (snd triple))
          (os_walk w ts_source_directory) ->
        open_for_write w output_file_name = Ok tt ->
        written_of (main w) = Some [(output_file_name, "")]).
Proof.
  intros host w.
  assert (C : forall directory_path : string,
             isdir w directory_path = true ->
             Forall (fun triple : string * list string * list (string * result string) =>
                       Forall (fun file => endswith (fst file) ".ts" = false)
                         (snd triple))
               (os_walk w directory_path) ->
             concatenate_typescript_files w directory_path = Ok ("", [])).
  { intros directory_path Hdir Hno.
    assert (E : ts_entries w directory_path = []).
    { unfold ts_entries. induction Hno as [|triple l Ht _ IH]; [reflexivity|].
      cbn [flat_map]. rewrite IH, app_nil_r.
      induction Ht as [|file files Hf _ IHf]; [reflexivity|].
      cbn [filter]. now rewrite Hf. }
    rewrite concatenate_by_entries, E by exact Hdir. reflexivity. }
  split; [exact C|].
  intros Hdir Hno Hopen. unfold main. rewrite (C _ Hdir Hno). cbn [bind fst snd].
  rewrite Hopen. reflexivity.
Qed.

Lemma no_ts_file_gives_empty_output_witness :
  isdir no_ts_world "src" = true
  /\ @concatenate_typescript_files (posix "/home/user/project") no_ts_world "src"
     = Ok ("", [])
  /\ written_of (@main (posix "/home/user/project") no_ts_world)
     = Some [("full_project_source.ts", "")].
Proof.
  split; [reflexivity|].
  destruct (no_ts_file_gives_empty_output (posix "/home/user/project") no_ts_world)
    as [C M].
  assert (F : Forall (fun triple : string * list string * list (string * result string) =>
                        Forall (fun file => endswith (fst file) ".ts" = false)
                          (snd triple))
                (@os_walk (posix "/home/user/project") no_ts_world "src"))
    by (repeat constructor).
  split; [apply (C "src" eq_refl F) | apply (M eq_refl F eq_refl)].
Defined.

Lemma concatenation_sees_only_ts_files_witness :
  isdir failing_world "src" = true
  /\ isdir failing_world_bare "src" = true
  /\ @ts_entries (posix "/home/user/project") failing_world "src"
     = @ts_entries (posix "/home/user/project") failing_world_bare "src"
  /\ @concatenate_typescript_files (posix "/home/user/project") failing_world "src"
     = @concatenate_typescript_files (posix "/home/user/project") failing_world_bare "src".
Proof.
  split; [reflexivity|]. split; [reflexivity|]. split; [reflexivity|].
  apply (concatenation_sees_only_ts_files (posix "/home/user/project")); reflexivity.
Defined.

(** X13. For a source directory that exists, the string returned never
    starts with [Error:], so the test of the main program tells the two
    cases apart.  The main program then prints the lines of the run and one
    closing line; it writes the whole string to the output file when that
    can be opened, and writes nothing, without raising, when it cannot. *)
Theorem main_writes_what_was_concatenated :
  forall (cwd : string) (w : world),
    isdir w ts_source_directory = true ->
    exists (text : string) (log : list string),
      @concatenate_typescript_files (posix cwd) w ts_source_directory = Ok (text, log)
      /\ startswith text "Error:" = false
      /\ @main (posix cwd) w
         = Ok (match open_for_write w output_file_name with
               | Ok _ =>
                   Outcome
                     (("Concatenating TypeScript files from: src" :: log)
                      ++ ["Successfully concatenated files to 'full_project_source.ts'."])
                     [(output_file_name, text)]
               | Raise e =>
                   Outcome
                     (("Concatenating TypeScript files from: src" :: log)
                      ++ [("Error writing to output file 'full_project_source.ts': "
                           ++ exn_msg e)%string])
                     []
               end).
Proof.
  intros cwd w Hdir.
  assert (Hp : ts_source_directory <> "") by discriminate.
  pose proof (@concatenate_entries (posix cwd) w ts_source_directory Hdir
                (posix_entries_relpath cwd w ts_source_directory Hp)) as C.
  eexists. eexists. split; [exact C|].
  pose proof (@blocks_not_error (posix cwd) ts_source_directory
                (@ts_entries (posix cwd) w ts_source_directory)) as N.
  split; [exact N|].
  unfold main. rewrite C. cbn [bind fst snd]. rewrite N.
  now destruct (open_for_write w output_file_name).
Qed.

Lemma main_writes_what_was_concatenated_witness :
  isdir read_only_world "src" = true
  /\ @main (posix "/home/user/project") read_only_world
     = Ok (Outcome
             ["Concatenating TypeScript files from: src";
              "Error reading lib/locked.ts: [Errno 13] Permission denied: 'src/lib/locked.ts'";
              "Error writing to output file 'full_project_source.ts': [Errno 13] Permission denied: 'full_project_source.ts'"]
             []).
Proof.
  split; [reflexivity|].
  destruct (main_writes_what_was_concatenated "/home/user/project" read_only_world
              eq_refl) as (text & log & C & _ & M).
  rewrite M. injection C as _ <-. reflexivity.
Defined.

(** X14. Nothing is lost: the text of every [.ts] file that could be read
    stands in the string returned as it was read, right after the comment
    line with its normalized relative path, and is followed by a line
    feed. *)
Theorem readable_file_is_copied_verbatim :
  forall (cwd : string) (w : world) (directory_path root file_name content : string),
    directory_path <> "" ->
    isdir w directory_path = true ->
    In (root, (file_name, Ok content)) (@ts_entries (posix cwd) w directory_path) ->
    exists (text : string) (log : list string) (relative_path before after : string),
      @concatenate_typescript_files (posix cwd) w directory_path = Ok (text, log)
      /\ Posix.relpath cwd (Posix.join root file_name) directory_path = Ok relative_path
      /\ text
         = before
           ++ ("// src/" ++ replace "/" "/" relative_path ++ String nl ""
               ++ content ++ String nl "")
           ++ after.
Proof.
  intros cwd w directory_path root file_name content Hp Hdir Hin.
  pose proof (posix_entries_relpath cwd w directory_path Hp) as Hrel.
  pose proof (@concatenate_entries (posix cwd) w directory_path Hdir Hrel) as C.
  rewrite Forall_forall in Hrel. destruct (Hrel _ Hin) as (rel & R). cbn [fst snd] in R.
  assert (B : In ("// src/" ++ replace "/" "/" rel ++ String nl "" ++ content
                  ++ String nl "")%string
                (flat_map (@entry_block (posix cwd) directory_path)
                   (@ts_entries (posix cwd) w directory_path))).
  { apply in_flat_map. exists (root, (file_name, Ok content)). split; [exact Hin|].
    unfold entry_block, normalized_path_of. cbn [fst snd]. rewrite R.
    rewrite <- (@normalized_path_forward (posix cwd)). cbn [file_block].
    right. left. reflexivity. }
  destruct (join_holds (String nl "") _ _ B) as (before & after & E).
  exists (PyStr.join (String nl "")
            (flat_map (@entry_block (posix cwd) directory_path)
               (@ts_entries (posix cwd) w directory_path))).
  eexists. exists rel, before, after. split; [exact C|]. split; [exact R | exact E].
Qed.

Lemma readable_file_is_copied_verbatim_witness :
  "src" <> ""
  /\ isdir failing_world "src" = true
  /\ In ("src/lib", ("z.ts", Ok "let z = 26;"))
       (@ts_entries (posix "/home/user/project") failing_world "src")
  /\ exists (text : string) (log : list string) (relative_path before after : string),
       @concatenate_typescript_files (posix "/home/user/project") failing_world "src"
       = Ok (text, log)
       /\ Posix.relpath "/home/user/project" (Posix.join "src/lib" "z.ts") "src"
          = Ok relative_path
       /\ text
          = before
            ++ ("// src/" ++ replace "/" "/" relative_path ++ String nl ""
                ++ "let z = 26;" ++ String nl "")
            ++ after.
Proof.
  split; [discriminate|]. split; [reflexivity|].
  assert (I : In ("src/lib", ("z.ts", Ok "let z = 26;"))
                (@ts_entries (posix "/home/user/project") failing_world "src"))
    by (right; right; left; reflexivity).
  split; [exact I|].
  apply (readable_file_is_copied_verbatim "/home/user/project" failing_world "src"
           "src/lib" "z.ts" "let z = 26;"); [discriminate | reflexivity | exact I].
Defined.

(** ** Tree mode: [.git], and the lines of one directory *)

Lemma posix_join_git (top : string) :
  In ".git" (split Posix.slash (Posix.join top ".git")).
Proof.
  assert (A : forall c, In ".git" (split Posix.slash (c ++ String Posix.slash ".git"))).
  { intros c. rewrite PosixFacts.split_app_sep. apply in_or_app. right. now left. }
  unfold Posix.join. change (startswith ".git" "/") with false. cbv iota.
  destruct (String.eqb_spec top "") as [->|_]; cbn [orb]; [now left|].
  destruct (endswith top "/") eqn:E; [|apply A].
  destruct (PosixFacts.endswith_inv top Posix.slash E) as (c & ->).
  rewrite PosixRelpath.append_assoc. apply A.
Qed.

(** X15. Under posixpath a directory named [.git] leaves no trace in the
    tree document, at any depth and whatever the rules are, a rule [!.git]
    included: the walk writes what it would write without it. *)
Theorem git_directory_leaves_no_trace :
  forall (cwd : string) (patterns : list pattern) (root_dir top : string)
         (sub : dir) (l1 l2 : list (string * dir))
         (files : list (string * result string)) (out : list string),
    @walk_pruning (posix cwd) _ (@structure_body (posix cwd) patterns root_dir) top
      (Dir (l1 ++ (".git", sub) :: l2) files) out
    = @walk_pruning (posix cwd) _ (@structure_body (posix cwd) patterns root_dir) top
        (Dir (l1 ++ l2) files) out.
Proof.
  intros cwd patterns root_dir top sub l1 l2 files out.
  apply (@structure_walk_drops (posix cwd)).
  apply (@matches_git (posix cwd)). apply existsb_exists.
  exists ".git". split; [apply posix_join_git | reflexivity].
Qed.

Lemma prefix_take (p s : string) :
  String.prefix p s = true -> take (String.length p) s = p.
Proof.
  revert s. induction p as [|c p IH]; intros s H; [now destruct s|].
  destruct s as [|d s]; [discriminate|]. cbn [String.prefix] in H.
  destruct (ascii_dec c d) as [<-|]; [|discriminate].
  cbn [String.length take]. now rewrite (IH s H).
Qed.

(** Taking out the occurrences of a string that holds no [c] leaves the
    number of [c] as it was. *)
Lemma count_replace_from (c : ascii) (old s : string) (k : nat) :
  old <> "" -> count c old = 0 -> count c (take k s) = 0 ->
  count c (replace_from old "" s k) = count c s.
Proof.
  intros Hne Hold. revert k. induction s as [|x s IH]; intros k Hk; [reflexivity|].
  destruct k as [|k].
  - cbn [replace_from]. destruct (String.prefix old (String x s)) eqn:P.
    + cbn [String.append]. destruct old as [|y old]; [contradiction|].
      cbn [String.prefix] in P. destruct (ascii_dec y x) as [<-|]; [|discriminate].
      cbn [count] in Hold |- *.
      destruct (Ascii.eqb y c); [discriminate|]. cbn [Nat.add] in Hold |- *.
      cbn [String.length Nat.sub]. rewrite Nat.sub_0_r. apply IH.
      now rewrite (prefix_take old s P).
    + cbn [count]. now rewrite (IH 0 eq_refl).
  - cbn [take count] in Hk. cbn [replace_from count].
    destruct (Ascii.eqb x c); [discriminate|]. cbn [Nat.add] in Hk |- *.
    now apply IH.
Qed.

Lemma count_replace (c : ascii) (old s : string) :
  old <> "" -> count c old = 0 -> count c (replace old "" s) = count c s.
Proof.
  intros Hne Hold. unfold replace. destruct old as [|y old]; [contradiction|].
  now apply count_replace_from.
Qed.

Section BodyLines.
Context {host : OsPath}.

(** The loop over the files writes one line for each file kept. *)
Lemma file_loop_lines (excluded : string -> result bool) (line : string -> string)
    (filenames out : list string) :
  for_each
    (fun (out : list string) (filename : string) =>
       m <- excluded filename ;;
       Ok (if negb m then append out (line filename) else out))
    filenames out
  = (kept <- comprehension (fun filename => m <- excluded filename ;; Ok (negb m))
               filenames ;;
     Ok (out ++ map line kept)%list).
Proof.
  revert out. induction filenames as [|f l IH]; intros out.
  - cbn [for_each comprehension bind map]. now rewrite app_nil_r.
  - cbn [for_each comprehension]. destruct (excluded f) as [m|e]; [|reflexivity].
    cbn [bind]. rewrite IH.
    destruct (comprehension _ l) as [kept|e]; [|reflexivity].
    cbn [bind]. destruct m; cbn [negb]; [reflexivity|].
    unfold append. cbn [map]. now rewrite <- app_assoc.
Qed.
End BodyLines.

(** X16. The lines of one directory.  When the root given holds no
    separator (as [.] does), a directory that is visited and not skipped
    adds its name with a slash, indented by four spaces for each separator
    of its path, and then one line for each of its files that the matcher
    does not exclude, in listing order, indented four spaces more.  A
    directory other than the root that the matcher excludes adds
    nothing. *)
Theorem directory_lines_are_indented_by_depth :
  forall (host : OsPath) (patterns : list pattern) (root_dir dirpath : string)
         (out dirnames filenames : list string) (r : list string * list string),
    root_dir <> "" ->
    count sep root_dir = 0 ->
    structure_body patterns root_dir out dirpath dirnames filenames = Ok r ->
    (dirpath <> root_dir
     /\ matches_gitignore_pattern dirpath patterns root_dir = Ok true
     /\ snd r = out)
    \/ (exists kept_files : list string,
           comprehension
             (fun filename =>
                m <- matches_gitignore_pattern (path_join dirpath filename)
                       patterns root_dir ;;
                Ok (negb m))
             filenames
           = Ok kept_files
           /\ snd r
              = (out
                 ++ (times "    " (count sep dirpath) ++ basename dirpath ++ "/"
                     ++ String nl "")%string
                    :: map (fun filename =>
                              (times "    " (count sep dirpath + 1) ++ filename
                               ++ String nl "")%string)
                         kept_files)%list).
Proof.
  intros host patterns root_dir dirpath out dirnames filenames r Hne Hsep.
  unfold structure_body. rewrite (count_replace sep root_dir dirpath Hne Hsep).
  change (times " " 4) with "    ".
  destruct (comprehension _ dirnames) as [kept|e]; [|discriminate]. cbn [bind].
  assert (B : forall skipped : result bool,
             skipped = Ok false ->
             (skip <- skipped ;;
              if skip then Ok (kept, out)
              else
                out' <- for_each
                          (fun (out : list string) (filename : string) =>
                             m <- matches_gitignore_pattern (path_join dirpath filename)
                                    patterns root_dir ;;
                             Ok (if negb m
                                 then append out
                                        (times "    " (count sep dirpath + 1)
                                         ++ filename ++ String nl "")
                                 else out))
                          filenames
                          (append out
                             (times "    " (count sep dirpath) ++ basename dirpath
                              ++ "/" ++ String nl "")) ;;
                Ok (kept, out')) = Ok r ->
             exists kept_files : list string,
               comprehension
                 (fun filename =>
                    m <- matches_gitignore_pattern (path_join dirpath filename)
                           patterns root_dir ;;
                    Ok (negb m))
                 filenames
               = Ok kept_files
               /\ snd r
                  = (out
                     ++ (times "    " (count sep dirpath) ++ basename dirpath ++ "/"
                         ++ String nl "")%string
                        :: map (fun filename =>
                                  (times "    " (count sep dirpath + 1) ++ filename
                                   ++ String nl "")%string)
                             kept_files)%list).
  { intros skipped ->. cbn [bind].
    rewrite (file_loop_lines
               (fun filename =>
                  matches_gitignore_pattern (path_join dirpath filename)
                    patterns root_dir)
               (fun filename =>
                  times "    " (count sep dirpath + 1) ++ filename ++ String nl "")).
    destruct (comprehension _ filenames) as [kept_files|e]; [|discriminate].
    cbn [bind]. intros [= <-]. exists kept_files. split; [reflexivity|].
    cbn [snd]. unfold append. now rewrite <- app_assoc. }
  destruct (String.eqb_spec dirpath root_dir) as [E|N]; cbn [negb].
  - intros H. right. now apply (B (Ok false)).
  - destruct (matches_gitignore_pattern dirpath patterns root_dir) as [[|]|e] eqn:M.
    + cbn [bind]. intros [= <-]. left. now repeat split.
    + intros H. right. now apply (B (Ok false)).
    + discriminate.
Qed.

Lemma directory_lines_are_indented_by_depth_witness :
  "." <> ""
  /\ count (@sep (posix "/home/user/project")) "." = 0
  /\ @structure_body (posix "/home/user/project") [("*.log", false)] "."
       ["earlier" ++ String nl ""] "./src/lib" ["tmp"] ["a.ts"; "debug.log"; "b.ts"]
     = Ok (["tmp"],
           ["earlier" ++ String nl "";
            "        lib/" ++ String nl "";
            "            a.ts" ++ String nl "";
            "            b.ts" ++ String nl ""])
  /\ (("./src/lib" <> "."
       /\ @matches_gitignore_pattern (posix "/home/user/project") "./src/lib"
            [("*.log", false)] "." = Ok true
       /\ ["earlier" ++ String nl "";
           "        lib/" ++ String nl "";
           "            a.ts" ++ String nl "";
           "            b.ts" ++ String nl ""]
          = ["earlier" ++ String nl ""])
      \/ exists kept_files : list string,
           comprehension
             (fun filename =>
                m <- @matches_gitignore_pattern (posix "/home/user/project")
                       (@path_join (posix "/home/user/project") "./src/lib" filename)
                       [("*.log", false)] "." ;;
                Ok (negb m))
             ["a.ts"; "debug.log"; "b.ts"]
           = Ok kept_files
           /\ ["earlier" ++ String nl "";
               "        lib/" ++ String nl "";
               "            a.ts" ++ String nl "";
               "            b.ts" ++ String nl ""]
              = ([("earlier" ++ String nl "")%string]
                 ++ (times "    " (count (@sep (posix "/home/user/project")) "./src/lib")
                     ++ @basename (posix "/home/user/project") "./src/lib" ++ "/"
                     ++ String nl "")%string
                    :: map (fun filename =>
                              (times "    "
                                 (count (@sep (posix "/home/user/project")) "./src/lib" + 1)
                               ++ filename ++ String nl "")%string)
                         kept_files)%list).
Proof.
  split; [discriminate|]. split; [reflexivity|]. split; [vm_compute; reflexivity|].
  apply (directory_lines_are_indented_by_depth (posix "/home/user/project")
           [("*.log", false)] "." "./src/lib" ["earlier" ++ String nl ""] ["tmp"]
           ["a.ts"; "debug.log"; "b.ts"]
           (["tmp"],
            ["earlier" ++ String nl "";
             "        lib/" ++ String nl "";
             "            a.ts" ++ String nl "";
             "            b.ts" ++ String nl ""])).
  - discriminate.
  - reflexivity.
  - vm_compute; reflexivity.
Defined.

(** ** The trailing slash of a directory rule *)

Lemma rule_regex_slash (X : string) :
  endswith X "/" = false -> rule_regex (X ++ "/") = rule_regex X.
Proof.
  intros H. unfold rule_regex. now rewrite endswith_app, drop_last_app, H.
Qed.

(** X17. The trailing slash of a rule is taken off and nothing else is
    done with it: the rule [X/] builds the very expression of the rule [X],
    so at any place of a rule list it can be put for [X] without changing
    any answer; it matches files named [X] as it matches directories. *)
Theorem directory_rule_is_plain_rule :
  forall (host : OsPath) (X : string),
    endswith X "/" = false ->
    rule_regex (X ++ "/") = rule_regex X
    /\ (forall (filepath root_dir : string) (pre post : list pattern)
               (is_negation : bool),
           matches_gitignore_pattern filepath
             (pre ++ (X ++ "/", is_negation) :: post) root_dir
           = matches_gitignore_pattern filepath
               (pre ++ (X, is_negation) :: post) root_dir).
Proof.
  intros host X H. split; [now apply rule_regex_slash|].
  intros filepath root_dir pre post is_negation. unfold matches_gitignore_pattern.
  destruct (existsb (String.eqb ".git") (split sep filepath)); [reflexivity|].
  destruct (relpath filepath root_dir) as [rel|e]; [|reflexivity]. cbn [bind].
  rewrite !for_each_app. destruct (for_each _ pre false) as [m|e]; [|reflexivity].
  cbn [bind for_each]. unfold rule_step at 1 3.
  now rewrite (rule_regex_slash X H).
Qed.

Lemma directory_rule_is_plain_rule_witness :
  endswith "build" "/" = false
  /\ rule_regex "build/" = rule_regex "build"
  /\ @matches_gitignore_pattern (posix "/srv/app") "tools/build"
       [("*.tmp", false); ("build/", false); ("*.md", true)] "."
     = @matches_gitignore_pattern (posix "/srv/app") "tools/build"
         [("*.tmp", false); ("build", false); ("*.md", true)] ".".
Proof.
  split; [reflexivity|].
  destruct (directory_rule_is_plain_rule (posix "/srv/app") "build" eq_refl) as [R M].
  split; [exact R|].
  exact (M "tools/build" "." [("*.tmp", false)] [("*.md", true)] false).
Defined.
